(** * pytong: asynchronous fetch-and-save scripts, embedded and verified

    The repository is a family of Python scripts (variants v1 to v7) that
    fetch JSON over HTTP with [aiohttp], follow pagination and write CSV
    files with [csv.DictWriter].  This development embeds the variants 3
    to 7 (streaming, link pagination, total/offset pagination, streaming
    total/offset, streaming with parsing) and proves properties of them.

    Conventions of the embedding:
    - Python values decoded from JSON are the inductive type [value];
      integers are unbounded ([Z]), floats are IEEE doubles;
    - a Python computation that may raise is a [result]; a computation that
      also issues HTTP requests and writes to the output file is an [IO]
      (state and error monad over [world]);
    - the HTTP session is a function from the requested URL to what
      [session.get] does there (within a run the server answers a URL the
      same way each time); the order in which concurrent tasks complete is
      given by a [scheduler];
    - [print] calls are not modelled, and opening and writing the output
      file never fails; the [except IOError] of the streaming variants is
      modelled for the exceptions of the tasks that it catches (Python
      3.11 and later, where a timeout is an [OSError]). *)

From Stdlib Require Import ZArith List String Ascii Bool Lia Permutation.
From Stdlib Require Import DecimalString Floats.
Import ListNotations.

Open Scope Z_scope.

#[local] Set Warnings "-register-all".

(* ===================================================================== *)
(** * Python values                                                       *)
(* ===================================================================== *)

(** What [response.json()] can return: [None], [bool], [int], [float],
    [str], [list] and [dict].  A dict is represented by its items in
    insertion order; Python keeps its keys unique, and [dict_get] reads the
    first binding of a key. *)
Inductive value : Type :=
| VNone
| VBool (b : bool)
| VInt (z : Z)
| VFloat (f : float)
| VStr (s : string)
| VList (l : list value)
| VDict (kv : list (string * value)).

(** Python's truth value testing ([if x:], [not x], [while x:]). *)
Definition truthy (v : value) : bool :=
  match v with
  | VNone => false
  | VBool b => b
  | VInt z => negb (z =? 0)
  | VFloat f => negb (PrimFloat.eqb f 0%float)
  | VStr s => negb (String.eqb s EmptyString)
  | VList l => match l with [] => false | _ :: _ => true end
  | VDict kv => match kv with [] => false | _ :: _ => true end
  end.

(** The exceptions the scripts can meet.  [aiohttp.ClientError] is the base
    class of the three first ones and of no other. *)
Inductive exn : Type :=
| ClientConnectionError          (* aiohttp: connection refused, reset, DNS *)
| ClientResponseError (status : Z) (* aiohttp: raised by raise_for_status *)
| ContentTypeError               (* aiohttp: response.json(), wrong mimetype *)
| JSONDecodeError                (* json: body is not valid JSON *)
| TimeoutError                   (* asyncio: total timeout of the session *)
| AttributeError
| TypeError
| ValueError.

(** [isinstance(e, aiohttp.ClientError)] *)
Definition is_ClientError (e : exn) : bool :=
  match e with
  | ClientConnectionError | ClientResponseError _ | ContentTypeError => true
  | _ => false
  end.

(** [isinstance(e, IOError)], that is [OSError]: the connection errors of
    aiohttp, and from Python 3.11 on the [TimeoutError] of asyncio. *)
Definition is_IOError (e : exn) : bool :=
  match e with
  | ClientConnectionError | TimeoutError => true
  | _ => false
  end.

Inductive result (A : Type) : Type :=
| Return (a : A)
| Raise (e : exn).
Arguments Return {A} a.
Arguments Raise {A} e.

Definition raises {A : Type} (r : result A) : bool :=
  match r with Return _ => false | Raise _ => true end.

Definition and_then {A B : Type} (r : result A) (k : A -> result B)
  : result B :=
  match r with Return a => k a | Raise e => Raise e end.

Notation "'let*' x := r 'in' k" := (and_then r (fun x => k))
  (at level 10, x name, k at level 200).

Fixpoint map_result {A B : Type} (f : A -> result B) (l : list A)
  : result (list B) :=
  match l with
  | [] => Return []
  | x :: rest =>
      let* y := f x in
      let* ys := map_result f rest in
      Return (y :: ys)
  end.

(** [str(n)] for an [int], as an f-string formats it. *)
Definition str_of_int (z : Z) : string := NilZero.string_of_int (Z.to_int z).

Fixpoint assoc (kv : list (string * value)) (key : string) : option value :=
  match kv with
  | [] => None
  | (k, v) :: rest => if String.eqb k key then Some v else assoc rest key
  end.

(** [d.get(key, default)] on a dict. *)
Definition dict_get (kv : list (string * value)) (key : string) (default : value)
  : value :=
  match assoc kv key with Some v => v | None => default end.

(** [x.get(key, default)] on any value: only a dict has the method. *)
Definition get (x : value) (key : string) (default : value) : result value :=
  match x with
  | VDict kv => Return (dict_get kv key default)
  | _ => Raise AttributeError
  end.

(** [iter(x)]: a list yields its elements, a str its characters, a dict
    its keys; the other values are not iterable. *)
Definition iterate (x : value) : result (list value) :=
  match x with
  | VList l => Return l
  | VStr s => Return (map (fun c => VStr (String c EmptyString))
                          (list_ascii_of_string s))
  | VDict kv => Return (map (fun p => VStr (fst p)) kv)
  | _ => Raise TypeError
  end.

(** [operator.index(x)]: what [range] accepts as an argument.  [bool] is a
    subclass of [int]. *)
Definition index (x : value) : result Z :=
  match x with
  | VInt z => Return z
  | VBool b => Return (if b then 1 else 0)
  | _ => Raise TypeError
  end.

(* ===================================================================== *)
(** * range                                                               *)
(* ===================================================================== *)

(** [len(range(start, stop, step))], as CPython computes it. *)
Definition range_length (start stop step : Z) : Z :=
  if 0 <? step then
    if start <? stop then (stop - start - 1) / step + 1 else 0
  else
    if stop <? start then (start - stop - 1) / (- step) + 1 else 0.

(** [list(range(start, stop, step))]; a zero step is a [ValueError]. *)
Definition range (start stop step : Z) : result (list Z) :=
  if step =? 0 then Raise ValueError
  else Return (map (fun i => start + Z.of_nat i * step)
                   (seq 0 (Z.to_nat (range_length start stop step)))).

(** [range(start, stop, step)] with a [stop] read from a JSON response. *)
Definition range_to (start : Z) (stop : value) (step : Z) : result (list Z) :=
  match index stop with
  | Raise e => Raise e
  | Return t => range start t step
  end.

(** The least [q] with [t <= q * p], for [p > 0]: the spec's [ceil(t/p)]. *)
Definition ceil_div (t p : Z) : Z := (t + p - 1) / p.

(* ===================================================================== *)
(** * The world: requests issued and lines written                        *)
(* ===================================================================== *)

(** A line of the output file, tagged with the [DictWriter] call that
    produced it: [writeheader] or [writerow]. *)
Inductive line : Type :=
| Header (fields : list string)
| Row (cells : list value).

Record world : Type := World {
  requests : list value;   (* URLs passed to session.get, oldest first *)
  file : list line         (* lines of the output file, first line first *)
}.

Definition start : world := World [] [].

Definition IO (A : Type) : Type := world -> result A * world.

Definition ret {A : Type} (a : A) : IO A := fun w => (Return a, w).

Definition raise {A : Type} (e : exn) : IO A := fun w => (Raise e, w).

Definition bind {A B : Type} (m : IO A) (k : A -> IO B) : IO B :=
  fun w => match m w with
           | (Return a, w') => k a w'
           | (Raise e, w') => (Raise e, w')
           end.

Definition lift {A : Type} (r : result A) : IO A := fun w => (r, w).

(** Runs [m] and hands back how it ended instead of raising: the state of
    a task that has finished. *)
Definition attempt {A : Type} (m : IO A) : IO (result A) :=
  fun w => let (r, w') := m w in (Return r, w').

Declare Scope io_scope.
Delimit Scope io_scope with io.
Notation "x <- m ;; k" := (bind m (fun x => k))
  (at level 61, m at next level, right associativity) : io_scope.
Notation "m ;;; k" := (bind m (fun _ => k))
  (at level 61, right associativity) : io_scope.
Open Scope io_scope.

Fixpoint for_each {A : Type} (l : list A) (body : A -> IO unit) : IO unit :=
  match l with
  | [] => ret tt
  | x :: rest => body x ;;; for_each rest body
  end.

Fixpoint map_io {A B : Type} (f : A -> IO B) (l : list A) : IO (list B) :=
  match l with
  | [] => ret []
  | x :: rest => y <- f x ;; ys <- map_io f rest ;; ret (y :: ys)
  end.

(* ===================================================================== *)
(** * aiohttp: session, response, and the shared [fetch_json]             *)
(* ===================================================================== *)

(** A response: its status code and what [await response.json()] does
    (the decoded body, or the exception the decoder raises). *)
Record response : Type := Response {
  status : Z;
  json : result value
}.

(** What [session.get(url)] does for each URL: a response, or an exception
    raised by the transport. *)
Definition session : Type := value -> result response.

(** [response.raise_for_status()]: aiohttp raises [ClientResponseError]
    when the status is 400 or more. *)
Definition raise_for_status (r : response) : result unit :=
  if 400 <=? status r then Raise (ClientResponseError (status r))
  else Return tt.

Definition session_get (s : session) (url : value) : IO response :=
  fun w => (s url, World (requests w ++ [url]) (file w)).

(** [try: m except aiohttp.ClientError: return None] *)
Definition except_ClientError (m : IO value) : IO value :=
  fun w => match m w with
           | (Raise e, w') =>
               if is_ClientError e then (Return VNone, w') else (Raise e, w')
           | rw => rw
           end.

(** [fetch_json(session, url)]; the same function in every variant. *)
Definition fetch_json (s : session) (url : value) : IO value :=
  except_ClientError
    (resp <- session_get s url ;;
     lift (raise_for_status resp) ;;;
     lift (json resp)).

(* ===================================================================== *)
(** * csv.DictWriter                                                      *)
(* ===================================================================== *)

Definition write (l : line) : IO unit :=
  fun w => (Return tt, World (requests w) (file w ++ [l])).

(** [writer.writeheader()] *)
Definition writeheader (fieldnames : list string) : IO unit :=
  write (Header fieldnames).

(** [writer.writerow(rowdict)] with [extrasaction='ignore'] and the default
    [restval='']: the cells are [rowdict.get(key, '')] for each field, and
    the line is written once all of them are there. *)
Definition writerow (fieldnames : list string) (rowdict : value) : IO unit :=
  cells <- lift (map_result (fun key => get rowdict key (VStr "")) fieldnames) ;;
  write (Row cells).

(** [writer.writerows(rowdicts)]: the rows are written one at a time, so
    the rows before a bad one stay in the file. *)
Definition writerows (fieldnames : list string) (rowdicts : value) : IO unit :=
  rows <- lift (iterate rowdicts) ;;
  for_each rows (writerow fieldnames).

(** [rowdict.keys()]: only a dict has the method. *)
Definition keys (x : value) : result (list string) :=
  match x with
  | VDict kv => Return (map fst kv)
  | _ => Raise AttributeError
  end.

(** [writer.writerow(rowdict)] with the default [extrasaction='raise']: a
    key of [rowdict] that is no field of the writer is a [ValueError],
    raised before anything of the row is written. *)
Definition writerow_raise (fieldnames : list string) (rowdict : value)
  : IO unit :=
  row_keys <- lift (keys rowdict) ;;
  if forallb (fun key => existsb (String.eqb key) fieldnames) row_keys then
    writerow fieldnames rowdict
  else raise ValueError.

(** [writer.writerows(rowdicts)] with the default [extrasaction='raise']. *)
Definition writerows_raise (fieldnames : list string) (rowdicts : value)
  : IO unit :=
  rows <- lift (iterate rowdicts) ;;
  for_each rows (writerow_raise fieldnames).

(* ===================================================================== *)
(** * Completion order of concurrent tasks                                *)
(* ===================================================================== *)

(** One run's completion order: [as_completed] hands back the tasks it
    was given, each once, in the order in which they finish.
    [asyncio.as_completed] wraps the coroutines it is given out of a set,
    so it also starts them in an order of its own, [started]; [gather]
    starts its tasks in submission order. *)
Record scheduler : Type := Scheduler {
  as_completed : forall A : Type, list A -> list A;
  as_completed_perm : forall (A : Type) (l : list A),
      Permutation l (as_completed A l);
  started : forall A : Type, list A -> list A;
  started_perm : forall (A : Type) (l : list A), Permutation l (started A l)
}.

Definition in_submission_order : scheduler :=
  Scheduler (fun _ l => l) (fun _ l => Permutation_refl l)
            (fun _ l => l) (fun _ l => Permutation_refl l).

Definition last_submitted_first : scheduler :=
  Scheduler (fun A l => rev l) (fun A l => Permutation_rev l)
            (fun _ l => l) (fun _ l => Permutation_refl l).

(** Starts the tasks of [as_completed] from the last one submitted. *)
Definition started_in_reverse : scheduler :=
  Scheduler (fun _ l => l) (fun _ l => Permutation_refl l)
            (fun A l => rev l) (fun A l => Permutation_rev l).

(* ===================================================================== *)
(** * Variant 5: total/offset pagination, gathered in one batch           *)
(* ===================================================================== *)

(** [await asyncio.gather] of the tasks: every task runs; the results come back
    in submission order, unless a task raised: then [gather] raises the
    exception of the first task that finished by raising. *)
Fixpoint collect {A : Type} (finished : list (result A)) : result (list A) :=
  match finished with
  | [] => Return []
  | Raise e :: _ => Raise e
  | Return a :: rest =>
      match collect rest with
      | Return l => Return (a :: l)
      | Raise e => Raise e
      end
  end.

Definition gather {A : Type} (sched : scheduler) (tasks : list (IO A))
  : IO (list A) :=
  finished <- map_io attempt tasks ;;
  match collect (as_completed sched _ finished) with
  | Raise e => raise e
  | Return _ => lift (collect finished)
  end.

(** [all_items.extend(page_items)]: only a list has the method, and the
    argument must be iterable. *)
Definition extend (all_items page_items : value) : result value :=
  match all_items with
  | VList l =>
      match iterate page_items with
      | Return more => Return (VList (l ++ more))
      | Raise e => Raise e
      end
  | _ => Raise AttributeError
  end.

Module V5.

(** [total_items = 100]: the total is a constant of the script. *)
Definition total_items : Z := 100.

Definition page_url (base_url : string) (max_results_per_page start_index : Z)
  : string :=
  (base_url ++ "?_start=" ++ str_of_int start_index
            ++ "&_limit=" ++ str_of_int max_results_per_page)%string.

(** Step 3: the URLs of the pages after the first one. *)
Definition urls_to_fetch (base_url : string) (max_results_per_page total : Z)
  : result (list value) :=
  match range max_results_per_page total max_results_per_page with
  | Raise e => Raise e
  | Return starts =>
      Return (map (fun start_index =>
                     VStr (page_url base_url max_results_per_page start_index))
                  starts)
  end.

(** Step 5: [for page_items in remaining_pages: if page_items: ...] *)
Fixpoint combine_pages (all_items : value) (remaining_pages : list value)
  : result value :=
  match remaining_pages with
  | [] => Return all_items
  | page_items :: rest =>
      if truthy page_items then
        match extend all_items page_items with
        | Return all_items' => combine_pages all_items' rest
        | Raise e => Raise e
        end
      else combine_pages all_items rest
  end.

Definition fetch_all_with_total_offset
    (sched : scheduler) (s : session)
    (base_url : string) (max_results_per_page : Z) : IO value :=
  let initial_url := page_url base_url max_results_per_page 0 in
  initial_response <- fetch_json s (VStr initial_url) ;;
  if negb (truthy initial_response) then ret (VList []) else
  let all_items := initial_response in
  if total_items =? 0 then ret all_items else
  urls <- lift (urls_to_fetch base_url max_results_per_page total_items) ;;
  remaining_pages <- gather sched (map (fetch_json s) urls) ;;
  lift (combine_pages all_items remaining_pages).

(** [main] of variant 5, with its constants [base_api_url], [max_results]
    and [fields_to_extract] as arguments.  The output file is opened only
    when items were fetched. *)
Definition main (sched : scheduler) (s : session) (base_url : string)
    (max_results : Z) (fields : list string) : IO unit :=
  all_items <- fetch_all_with_total_offset sched s base_url max_results ;;
  if negb (truthy all_items) then ret tt else
  writeheader fields ;;;
  writerows fields all_items.

End V5.

(* ===================================================================== *)
(** * Variant 6: total/offset pagination, streamed to the file            *)
(* ===================================================================== *)

(** The CONFIGURATION block of the streaming scripts. *)
Record config : Type := Config {
  base_api_url : string;
  max_results_per_page : Z;
  start_param : string;
  limit_param : string;
  total_key : string;
  items_key : string;
  fields_to_extract : list string
}.

(** The status message a run of [main] ends with. *)
Inductive report : Type :=
| FailedInitialPage       (* "Failed to fetch initial page. Aborting." *)
| AllOnFirstPage          (* "All items were on the first page. Done." *)
| SuccessfullyStreamed    (* "Successfully streamed all data to ..." *)
| NoDataWritten           (* "No data was found or written." *)
| ErrorWritingFile.       (* "Error writing to file: ..." *)

(** What the handler of [main] makes of the way its body ended. *)
Definition caught (ended : result report * world) : result report * world :=
  match ended with
  | (Raise e, w) =>
      if is_IOError e then (Return ErrorWritingFile, w) else (Raise e, w)
  | _ => ended
  end.

(** [try: body except IOError as e: print(...)] *)
Definition except_IOError (body : IO report) : IO report :=
  fun w => caught (body w).

Definition page_url (cfg : config) (start_index : Z) : string :=
  (base_api_url cfg ++ "?" ++ limit_param cfg ++ "="
     ++ str_of_int (max_results_per_page cfg) ++ "&" ++ start_param cfg ++ "="
     ++ str_of_int start_index)%string.

(** Step 3: [for start_index in range(page, total_items, page): ...] *)
Definition urls_to_fetch (cfg : config) (total_items : value)
  : result (list value) :=
  match range_to (max_results_per_page cfg) total_items
                 (max_results_per_page cfg) with
  | Raise e => Raise e
  | Return starts =>
      Return (map (fun start_index => VStr (page_url cfg start_index)) starts)
  end.

Definition final_report (header_written : bool) : report :=
  if header_written then SuccessfullyStreamed else NoDataWritten.

Module V6.

Definition configuration : config :=
  Config "https://dummyjson.com/products" 20 "skip" "limit"
         "total" "products"
         ["id"; "title"; "brand"; "category"; "price"; "rating"]%string.

(** Step 2; the result is the flag [header_written]. *)
Definition write_first_page (cfg : config) (first_page_items : value)
  : IO bool :=
  if truthy first_page_items then
    writeheader (fields_to_extract cfg) ;;;
    writerows (fields_to_extract cfg) first_page_items ;;;
    ret true
  else ret false.

(** The body of the loop of step 4, after [await future]. *)
Definition stream_page (cfg : config) (page_response : value) : IO unit :=
  if truthy page_response then
    items_on_page <- lift (get page_response (items_key cfg) (VList [])) ;;
    if truthy items_on_page then
      writerows (fields_to_extract cfg) items_on_page
    else ret tt
  else ret tt.

(** Step 4: [for future in asyncio.as_completed(tasks): ...], given the
    finished tasks in the order in which they completed. *)
Definition stream_pages (cfg : config) (futures : list (result value))
  : IO unit :=
  for_each futures
    (fun future =>
       page_response <- lift future ;;
       stream_page cfg page_response).

Definition main (cfg : config) (sched : scheduler) (s : session)
  : IO report :=
  except_IOError
    (let initial_url := page_url cfg 0 in
     initial_response <- fetch_json s (VStr initial_url) ;;
     if negb (truthy initial_response) then ret FailedInitialPage else
     total_items <- lift (get initial_response (total_key cfg) (VInt 0)) ;;
     first_page_items <-
       lift (get initial_response (items_key cfg) (VList [])) ;;
     header_written <- write_first_page cfg first_page_items ;;
     urls <- lift (urls_to_fetch cfg total_items) ;;
     match urls with
     | [] => ret AllOnFirstPage
     | _ :: _ =>
         tasks <- map_io (fun url => attempt (fetch_json s url))
                         (started sched _ urls) ;;
         stream_pages cfg (as_completed sched _ tasks) ;;;
         ret (final_report header_written)
     end).

End V6.

(* ===================================================================== *)
(** * Variant 7: variant 6 with a parsing step                            *)
(* ===================================================================== *)

Module V7.

Definition configuration : config :=
  Config "https://dummyjson.com/products" 20 "skip" "limit"
         "total" "products"
         ["product_id"; "product_name"; "brand_name"; "category";
          "price_usd"; "customer_rating"]%string.

(** [get_item_data(raw_item)]: six [raw_item.get(key)] calls, whose
    default is [None], assembled in a new dict. *)
Definition get_item_data (raw_item : value) : result value :=
  let* product_id := get raw_item "id" VNone in
  let* product_name := get raw_item "title" VNone in
  let* brand_name := get raw_item "brand" VNone in
  let* category := get raw_item "category" VNone in
  let* price_usd := get raw_item "price" VNone in
  let* customer_rating := get raw_item "rating" VNone in
  Return (VDict [("product_id", product_id);
                 ("product_name", product_name);
                 ("brand_name", brand_name);
                 ("category", category);
                 ("price_usd", price_usd);
                 ("customer_rating", customer_rating)]%string).

(** [[get_item_data(item) for item in items]] *)
Definition parse_items (items : value) : result value :=
  let* raw_items := iterate items in
  let* parsed_items := map_result get_item_data raw_items in
  Return (VList parsed_items).

Definition write_first_page (cfg : config) (first_page_items : value)
  : IO bool :=
  if truthy first_page_items then
    parsed_items <- lift (parse_items first_page_items) ;;
    writeheader (fields_to_extract cfg) ;;;
    writerows (fields_to_extract cfg) parsed_items ;;;
    ret true
  else ret false.

Definition stream_page (cfg : config) (page_response : value) : IO unit :=
  if truthy page_response then
    items_on_page <- lift (get page_response (items_key cfg) (VList [])) ;;
    if truthy items_on_page then
      parsed_items <- lift (parse_items items_on_page) ;;
      writerows (fields_to_extract cfg) parsed_items
    else ret tt
  else ret tt.

(** Step 4: [for future in asyncio.as_completed(tasks): ...], given the
    finished tasks in the order in which they completed. *)
Definition stream_pages (cfg : config) (futures : list (result value))
  : IO unit :=
  for_each futures
    (fun future =>
       page_response <- lift future ;;
       stream_page cfg page_response).

Definition main (cfg : config) (sched : scheduler) (s : session)
  : IO report :=
  except_IOError
    (let initial_url := page_url cfg 0 in
     initial_response <- fetch_json s (VStr initial_url) ;;
     if negb (truthy initial_response) then ret FailedInitialPage else
     total_items <- lift (get initial_response (total_key cfg) (VInt 0)) ;;
     first_page_items <-
       lift (get initial_response (items_key cfg) (VList [])) ;;
     header_written <- write_first_page cfg first_page_items ;;
     urls <- lift (urls_to_fetch cfg total_items) ;;
     match urls with
     | [] => ret AllOnFirstPage
     | _ :: _ =>
         tasks <- map_io (fun url => attempt (fetch_json s url))
                         (started sched _ urls) ;;
         stream_pages cfg (as_completed sched _ tasks) ;;;
         ret (final_report header_written)
     end).

End V7.

(* ===================================================================== *)
(** * Variant 4: following the [next] links                               *)
(* ===================================================================== *)

Module V4.

(** The [while next_url:] loop of [fetch_all_pages].  The loop need not
    terminate (the links may form a cycle), so the model counts the
    iterations it may still run: [None] means that [fuel] iterations
    were not enough, [Some all_items] is the list the function returns. *)
Fixpoint fetch_all_pages_loop (fuel : nat) (s : session)
    (next_url : value) (all_items : list value) : IO (option (list value)) :=
  if truthy next_url then
    match fuel with
    | O => ret None
    | S fuel' =>
        response_data <- fetch_json s next_url ;;
        if negb (truthy response_data) then ret (Some all_items) else
        items_on_page <- lift (get response_data "results" (VList [])) ;;
        more <- lift (iterate items_on_page) ;;
        next_url' <- lift (get response_data "next" VNone) ;;
        fetch_all_pages_loop fuel' s next_url' (all_items ++ more)
    end
  else ret (Some all_items).

Definition fetch_all_pages (fuel : nat) (s : session) (initial_url : value)
  : IO (option (list value)) :=
  fetch_all_pages_loop fuel s initial_url [].

End V4.

(* ===================================================================== *)
(** * Variant 3: streaming a fixed list of URLs                           *)
(* ===================================================================== *)

Module V3.

Definition api_urls : list value :=
  [VStr "https://jsonplaceholder.typicode.com/posts/1";
   VStr "https://jsonplaceholder.typicode.com/posts/2";
   VStr "https://jsonplaceholder.typicode.com/posts/3";
   VStr "https://jsonplaceholder.typicode.com/posts/4";
   VStr "https://jsonplaceholder.typicode.com/posts/5"].

Definition fields_to_extract : list string := ["id"; "title"; "userId"]%string.

(** [{key: result.get(key) for key in fields}] *)
Definition processed_item (fields : list string) (result_ : value)
  : result value :=
  let* items := map_result (fun key => let* v := get result_ key VNone in
                                       Return (key, v)) fields in
  Return (VDict items).

(** The loop over [asyncio.as_completed(tasks)]; [header_written] is the
    flag of the same name.  The row has exactly the writer's fields, so
    the writer's default [extrasaction='raise'] never fires. *)
Fixpoint stream (fields : list string) (futures : list (result value))
    (header_written : bool) : IO bool :=
  match futures with
  | [] => ret header_written
  | future :: rest =>
      result_ <- lift future ;;
      if truthy result_ then
        (if negb header_written then writeheader fields else ret tt) ;;;
        row <- lift (processed_item fields result_) ;;
        writerow fields row ;;;
        stream fields rest true
      else stream fields rest header_written
  end.

(** [main] of variant 3, with [api_urls] and [fields_to_extract] as
    arguments; its two closing messages are those of [final_report]. *)
Definition main (urls : list value) (fields : list string)
    (sched : scheduler) (s : session) : IO report :=
  except_IOError
    (tasks <- map_io (fun url => attempt (fetch_json s url))
                     (started sched _ urls) ;;
     header_written <- stream fields (as_completed sched _ tasks) false ;;
     ret (final_report header_written)).

End V3.

(* ===================================================================== *)
(** * Variants 1 and 2: one batch, written after it has been gathered     *)
(* ===================================================================== *)

Module V1.

Definition api_urls : list value :=
  [VStr "https://jsonplaceholder.typicode.com/posts/1";
   VStr "https://jsonplaceholder.typicode.com/posts/2";
   VStr "https://jsonplaceholder.typicode.com/posts/3"].

(** [main] of variant 1, with [api_urls] as an argument.  The header is
    the key list of the first successful result, and the writer has the
    default [extrasaction='raise']. *)
Definition main (urls : list value) (sched : scheduler) (s : session)
  : IO unit :=
  results <- gather sched (map (fetch_json s) urls) ;;
  let successful_results := filter truthy results in
  match successful_results with
  | [] => ret tt
  | first :: _ =>
      headers <- lift (keys first) ;;
      writeheader headers ;;;
      writerows_raise headers (VList successful_results)
  end.

End V1.

Module V2.

Definition api_urls : list value :=
  [VStr "https://jsonplaceholder.typicode.com/posts/1";
   VStr "https://jsonplaceholder.typicode.com/posts/2";
   VStr "https://jsonplaceholder.typicode.com/posts/3"].

Definition fields_to_extract : list string := ["id"; "title"]%string.

(** [{key: item.get(key) for key in fields_to_extract}] *)
Definition processed_item (fields : list string) (item : value)
  : result value :=
  let* items := map_result (fun key => let* v := get item key VNone in
                                       Return (key, v)) fields in
  Return (VDict items).

(** [main] of variant 2, with [api_urls] and [fields_to_extract] as
    arguments.  Every result is processed before the file is opened. *)
Definition main (urls : list value) (fields : list string)
    (sched : scheduler) (s : session) : IO unit :=
  results <- gather sched (map (fetch_json s) urls) ;;
  let successful_results := filter truthy results in
  match successful_results with
  | [] => ret tt
  | _ :: _ =>
      processed_data <-
        lift (map_result (processed_item fields) successful_results) ;;
      match processed_data with
      | [] => ret tt
      | _ :: _ =>
          writeheader fields ;;;
          writerows_raise fields (VList processed_data)
      end
  end.

End V2.

(* ===================================================================== *)
(** * Reading the models: outcomes, rows, well-formed pages               *)
(* ===================================================================== *)

(** What [fetch_json] hands back for a URL (the world aside). *)
Definition fetched (s : session) (url : value) : result value :=
  fst (fetch_json s url start).

Definition is_dict (v : value) : bool :=
  match v with VDict _ => true | _ => false end.

(** The line [writerow] writes for an item. *)
Definition row_of (fields : list string) (item : value) : list line :=
  match item with
  | VDict kv => [Row (map (fun key => dict_get kv key (VStr "")) fields)]
  | _ => []
  end.

(** The item list of a page of the total/offset API. *)
Definition items_of (cfg : config) (page : value) : list value :=
  match page with
  | VDict kv =>
      match dict_get kv (items_key cfg) (VList []) with
      | VList items => items
      | _ => []
      end
  | _ => []
  end.

(** A [Success] page of the data model: a dict whose items entry, when
    present, is a list of dicts. *)
Definition page_ok (cfg : config) (page : value) : bool :=
  match page with
  | VDict kv =>
      match dict_get kv (items_key cfg) (VList []) with
      | VList items => forallb is_dict items
      | _ => false
      end
  | _ => false
  end.

(** A [PageResult] of the data model: [Failure] is the [None] that
    [fetch_json] returns, [Success] is a well-formed page. *)
Definition page_result_ok (cfg : config) (future : result value) : bool :=
  match future with
  | Return VNone => true
  | Return page => page_ok cfg page
  | Raise _ => false
  end.

Definition page_of (future : result value) : value :=
  match future with Return page => page | Raise _ => VNone end.

(** The rows variant 6 writes for a page. *)
Definition page_rows (cfg : config) (page : value) : list line :=
  flat_map (row_of (fields_to_extract cfg)) (items_of cfg page).

(** Lines of the first page in variant 6: the header, then its rows. *)
Definition first_page_lines (cfg : config) (page : value) : list line :=
  match items_of cfg page with
  | [] => []
  | _ :: _ => Header (fields_to_extract cfg) :: page_rows cfg page
  end.

(** The offsets of the pages that remain after the initial one, read
    from its total. *)
Definition remaining_offsets (cfg : config) (initial : value) : list Z :=
  match initial with
  | VDict kv =>
      match range_to (max_results_per_page cfg)
                     (dict_get kv (total_key cfg) (VInt 0))
                     (max_results_per_page cfg) with
      | Return starts => starts
      | Raise _ => []
      end
  | _ => []
  end.

(** The total of the initial page, when it has one, is an [int]. *)
Definition total_ok (cfg : config) (initial : value) : bool :=
  match initial with
  | VDict kv =>
      negb (raises (index (dict_get kv (total_key cfg) (VInt 0))))
  | _ => true
  end.

(** What the task fetching the page at an offset ends with. *)
Definition page_at (cfg : config) (s : session) (offset : Z) : result value :=
  fetched s (VStr (page_url cfg offset)).

(** Variant 7 read the same way: the output dict of [get_item_data], the
    rows of a page after parsing, the lines of the first page. *)
Definition renaming : list (string * string) :=
  [("product_id", "id"); ("product_name", "title"); ("brand_name", "brand");
   ("category", "category"); ("price_usd", "price");
   ("customer_rating", "rating")]%string.

Definition parsed_dict (raw_item : list (string * value))
  : list (string * value) :=
  map (fun field_key => (fst field_key, dict_get raw_item (snd field_key) VNone))
      renaming.

(** [get_item_data(get_item_data(raw_item))] *)
Definition apply_twice (raw_item : value) : result value :=
  let* once := V7.get_item_data raw_item in
  V7.get_item_data once.

Definition parsed_row (fields : list string) (item : value) : list line :=
  match V7.get_item_data item with
  | Return parsed => row_of fields parsed
  | Raise _ => []
  end.

Definition parsed_rows (cfg : config) (page : value) : list line :=
  flat_map (parsed_row (fields_to_extract cfg)) (items_of cfg page).

Definition parsed_first_page_lines (cfg : config) (page : value) : list line :=
  match items_of cfg page with
  | [] => []
  | _ :: _ => Header (fields_to_extract cfg) :: parsed_rows cfg page
  end.

(** Variant 5 read the same way: its pages are lists of items. *)
Definition list_items (page : value) : list value :=
  match page with VList items => items | _ => [] end.

Definition batch_result_ok (future : result value) : bool :=
  match future with
  | Return VNone | Return (VList _) => true
  | _ => false
  end.

Definition batch_page_at (base_url : string) (max_results_per_page : Z)
    (s : session) (offset : Z) : result value :=
  fetched s (VStr (V5.page_url base_url max_results_per_page offset)).

(** A chain of link-style pages served by [s] from [url] on: the URLs
    requested, in order, and the item list of each page.  The chain ends
    at a URL that is no reference ([None], absent, empty), or at a request
    that fails; otherwise the page is a non-empty dict whose [results] are
    a list, and the chain goes on at its [next]. *)
Inductive chain (s : session) : value -> list value -> list (list value) -> Prop :=
| chain_no_next (url : value) :
    truthy url = false -> chain s url [] []
| chain_failed (url page : value) :
    truthy url = true -> fetched s url = Return page -> truthy page = false ->
    chain s url [url] []
| chain_page (url : value) (kv : list (string * value)) (items : list value)
             (urls : list value) (pages : list (list value)) :
    truthy url = true -> fetched s url = Return (VDict kv) -> kv <> [] ->
    dict_get kv "results" (VList []) = VList items ->
    chain s (dict_get kv "next" VNone) urls pages ->
    chain s url (url :: urls) (items :: pages).

Definition is_header (l : line) : bool :=
  match l with Header _ => true | Row _ => false end.

Definition count_headers (f : list line) : nat :=
  List.length (filter is_header f).

(** The header invariant of the sink: nothing written yet, or the header
    first and only rows after it. *)
Definition header_invariant (fields : list string) (f : list line) : bool :=
  match f with
  | [] => true
  | first :: rest =>
      match first with
      | Header names =>
          andb (if list_eq_dec string_dec names fields then true else false)
               (forallb (fun l => negb (is_header l)) rest)
      | Row _ => false
      end
  end.

(* ===================================================================== *)
(** * Concrete sessions and items used in the examples                    *)
(* ===================================================================== *)

Definition ok_response (body : value) : result response :=
  Return (Response 200 (Return body)).

(** Answers every request with status 200 and a body that is not JSON. *)
Definition invalid_json_session : session :=
  fun _ => Return (Response 200 (Raise JSONDecodeError)).

(** Answers every request with status 200 and the JSON body [42]. *)
Definition number_session : session :=
  fun _ => ok_response (VInt 42).

(** A server given by a table from URLs to what [session.get] does there;
    any other request fails to connect. *)
Fixpoint lookup_url (table : list (string * result response)) (url : string)
  : result response :=
  match table with
  | [] => Raise ClientConnectionError
  | (known, outcome) :: rest =>
      if String.eqb known url then outcome else lookup_url rest url
  end.

Definition serve (table : list (string * result response)) : session :=
  fun url =>
    match url with
    | VStr u => lookup_url table u
    | _ => Raise ClientConnectionError
    end.

(** dummyjson-like API with 40 products whose first page is empty. *)
Definition empty_first_page_session : session :=
  serve
    [("https://dummyjson.com/products?limit=20&skip=0",
      ok_response (VDict [("total", VInt 40); ("products", VList [])]));
     ("https://dummyjson.com/products?limit=20&skip=20",
      ok_response (VDict [("products", VList [VDict [("id", VInt 21)]])]))
    ]%string.

Definition product (id : Z) : value :=
  VDict [("id", VInt id); ("title", VStr "item")]%string.

(** dummyjson-like API with 45 products, 20 a page; the page at offset 20
    answers with status 500. *)
Definition three_page_table : list (string * result response) :=
  [("https://dummyjson.com/products?limit=20&skip=0",
    ok_response (VDict [("total", VInt 45);
                        ("products", VList [product 1; product 2])]));
   ("https://dummyjson.com/products?limit=20&skip=20",
    Return (Response 500 (Return VNone)));
   ("https://dummyjson.com/products?limit=20&skip=40",
    ok_response (VDict [("products", VList [product 41])]))
  ]%string.

Definition three_page_session : session := serve three_page_table.

(** The same API when the body of the page at offset 20 is not JSON. *)
Definition raising_session : session :=
  serve
    [("https://dummyjson.com/products?limit=20&skip=0",
      ok_response (VDict [("total", VInt 45);
                          ("products", VList [product 1; product 2])]));
     ("https://dummyjson.com/products?limit=20&skip=20",
      Return (Response 200 (Raise JSONDecodeError)));
     ("https://dummyjson.com/products?limit=20&skip=40",
      ok_response (VDict [("products", VList [product 41])]))
    ]%string.

(** The same API when every page answers. *)
Definition complete_session : session :=
  serve
    [("https://dummyjson.com/products?limit=20&skip=0",
      ok_response (VDict [("total", VInt 45);
                          ("products", VList [product 1; product 2])]));
     ("https://dummyjson.com/products?limit=20&skip=20",
      ok_response (VDict [("products", VList [product 21])]));
     ("https://dummyjson.com/products?limit=20&skip=40",
      ok_response (VDict [("products", VList [product 41])]))
    ]%string.

(** jsonplaceholder-like API: every page is the same list of one post. *)
Definition posts_session : session :=
  fun _ => ok_response (VList [VDict [("id", VInt 1)]%string]).

(** SWAPI-like chain of two pages; the second has no [next]. *)
Definition people_session : session :=
  serve
    [("https://swapi.dev/api/people/",
      ok_response
        (VDict [("results", VList [VStr "Luke"; VStr "Leia"]);
                ("next", VStr "https://swapi.dev/api/people/?page=2")]));
     ("https://swapi.dev/api/people/?page=2",
      ok_response (VDict [("results", VList [VStr "Han"]); ("next", VNone)]))
    ]%string.

Definition item_with_id : value := VDict [("id", VInt 1)]%string.

(* ===================================================================== *)
(** * Reading the other variants                                          *)
(* ===================================================================== *)

Definition only_rows (lines : list line) : bool :=
  forallb (fun l => negb (is_header l)) lines.

(** What every run of the streaming variants keeps: a header, if there is
    one, is the first line and names the configured fields; every other
    line is a row. *)
Definition header_only_first (fields : list string) (f : list line) : bool :=
  match f with
  | [] => true
  | Header names :: rest =>
      andb (if list_eq_dec string_dec names fields then true else false)
           (only_rows rest)
  | Row _ :: rest => only_rows rest
  end.

(** The row of a result in variants 2 and 3: the value of each field,
    [None] when the result lacks it. *)
Definition projected_row (fields : list string) (page : value) : list line :=
  match page with
  | VDict kv => [Row (map (fun key => dict_get kv key VNone) fields)]
  | _ => []
  end.

(** A result the batch variants can write: falsy, or a dict. *)
Definition falsy_or_dict (page : value) : bool :=
  negb (truthy page) || is_dict page.

Definition keys_of (page : value) : list string :=
  match page with VDict kv => map fst kv | _ => [] end.

(** The keys of [page] are fields of the writer. *)
Definition keys_within (fields : list string) (page : value) : bool :=
  forallb (fun key => existsb (String.eqb key) fields) (keys_of page).

Definition is_list (v : value) : bool :=
  match v with VList _ => true | _ => false end.

(** Answers every request with the same JSON object. *)
Definition object_session : session :=
  fun _ => ok_response (VDict [("id", VInt 1)]%string).

(** Every task of the batch returns: none raises past [fetch_json]. *)
Definition all_return (s : session) (urls : list value) : bool :=
  forallb (fun url => negb (raises (fetched s url))) urls.

(** The results of a batch, in submission order. *)
Definition batch_results (s : session) (urls : list value) : list value :=
  map (fun url => page_of (fetched s url)) urls.

(** A path of link-style pages from [url] to [url']: the URLs requested on
    the way and the item lists of their pages; [url'] itself is not
    requested. *)
Inductive reaches (s : session)
  : value -> list value -> list (list value) -> value -> Prop :=
| reaches_here (url : value) : reaches s url [] [] url
| reaches_page (url : value) (kv : list (string * value)) (items : list value)
               (urls : list value) (pages : list (list value)) (url' : value) :
    truthy url = true -> fetched s url = Return (VDict kv) -> kv <> [] ->
    dict_get kv "results" (VList []) = VList items ->
    reaches s (dict_get kv "next" VNone) urls pages url' ->
    reaches s url (url :: urls) (items :: pages) url'.

(** SWAPI-like server whose second page links back to the first one. *)
Definition cyclic_session : session :=
  serve
    [("https://swapi.dev/api/people/",
      ok_response
        (VDict [("results", VList [VStr "Luke"]);
                ("next", VStr "https://swapi.dev/api/people/?page=2")]));
     ("https://swapi.dev/api/people/?page=2",
      ok_response
        (VDict [("results", VList [VStr "Han"]);
                ("next", VStr "https://swapi.dev/api/people/")]))
    ]%string.

(** SWAPI-like server whose second page is not valid JSON. *)
Definition broken_second_page_session : session :=
  serve
    [("https://swapi.dev/api/people/",
      ok_response
        (VDict [("results", VList [VStr "Luke"]);
                ("next", VStr "https://swapi.dev/api/people/?page=2")]));
     ("https://swapi.dev/api/people/?page=2",
      Return (Response 200 (Raise JSONDecodeError)))
    ]%string.

(** jsonplaceholder-like server: post 2 is missing (status 404), post 3
    has a key that post 1 lacks. *)
Definition posts_table : list (string * result response) :=
  [("https://jsonplaceholder.typicode.com/posts/1",
    ok_response (VDict [("id", VInt 1); ("title", VStr "one")]));
   ("https://jsonplaceholder.typicode.com/posts/2",
    Return (Response 404 (Return VNone)));
   ("https://jsonplaceholder.typicode.com/posts/3",
    ok_response (VDict [("id", VInt 3); ("body", VStr "three")]))
  ]%string.

Definition single_posts_session : session := serve posts_table.

(** dummyjson-like API whose total is the string ["45"]. *)
Definition string_total_session : session :=
  serve
    [("https://dummyjson.com/products?limit=20&skip=0",
      ok_response (VDict [("total", VStr "45");
                          ("products", VList [product 1])]))
    ]%string.

(** dummyjson-like API that reports no total. *)
Definition no_total_session : session :=
  serve
    [("https://dummyjson.com/products?limit=20&skip=0",
      ok_response (VDict [("products", VList [product 1; product 2])]))
    ]%string.

(* ===================================================================== *)
(** * Basic facts: the monad, [fetch_json], the writer                    *)
(* ===================================================================== *)

Lemma world_eta (w : world) : World (requests w) (file w) = w.
Proof. destruct w; reflexivity. Qed.

Lemma bind_Return {A B : Type} (m : IO A) (k : A -> IO B) (w w' : world) (a : A) :
  m w = (Return a, w') -> bind m k w = k a w'.
Proof. unfold bind; intros ->; reflexivity. Qed.

Lemma bind_Raise {A B : Type} (m : IO A) (k : A -> IO B) (w w' : world) (e : exn) :
  m w = (Raise e, w') -> bind m k w = (Raise e, w').
Proof. unfold bind; intros ->; reflexivity. Qed.

(** The outcome of [fetch_json] does not depend on the world, and its only
    effect is the request it logs. *)
Lemma fetch_json_run (s : session) (url : value) (w : world) :
  fetch_json s url w = (fetched s url, World (requests w ++ [url]) (file w)).
Proof.
  unfold fetched, fetch_json, except_ClientError, bind, session_get, lift.
  cbn [fst snd requests file start].
  destruct (s url) as [resp | e].
  - destruct (raise_for_status resp) as [[] | e].
    + destruct (json resp) as [v | e]; [reflexivity |].
      destruct (is_ClientError e); reflexivity.
    + destruct (is_ClientError e); reflexivity.
  - destruct (is_ClientError e); reflexivity.
Qed.

(** [fetched] spelled out on the three things a request can meet. *)
Lemma fetched_eq (s : session) (url : value) :
  fetched s url =
  match s url with
  | Raise e => if is_ClientError e then Return VNone else Raise e
  | Return resp =>
      if 400 <=? status resp then Return VNone
      else match json resp with
           | Return body => Return body
           | Raise e => if is_ClientError e then Return VNone else Raise e
           end
  end.
Proof.
  unfold fetched, fetch_json, except_ClientError, bind, session_get, lift,
    raise_for_status.
  cbn [fst].
  destruct (s url) as [resp | e].
  - destruct (400 <=? status resp); cbn.
    + reflexivity.
    + destruct (json resp) as [v | e]; [reflexivity |].
      destruct (is_ClientError e); reflexivity.
  - destruct (is_ClientError e); reflexivity.
Qed.

(** Launching the tasks of a batch: every request is issued, in the
    order in which the tasks are started, and every task ends with its
    [fetched] outcome. *)
Lemma launch_run (s : session) (urls : list value) (w : world) :
  map_io (fun url => attempt (fetch_json s url)) urls w =
  (Return (map (fetched s) urls), World (requests w ++ urls) (file w)).
Proof.
  revert w; induction urls as [| url urls IH]; intros w; cbn [map_io map].
  - unfold ret. rewrite app_nil_r, world_eta. reflexivity.
  - unfold bind at 1, attempt. rewrite fetch_json_run.
    unfold bind at 1. rewrite IH. cbn [requests file ret].
    rewrite <- app_assoc. reflexivity.
Qed.

Lemma snd_caught (ended : result report * world) :
  snd (caught ended) = snd ended.
Proof.
  destruct ended as [[r | e] w]; [reflexivity |]. cbn [caught].
  destruct (is_IOError e); reflexivity.
Qed.

(** The handler lets pass every normal end and every exception that is
    no [IOError]. *)
Lemma caught_passes (ended : result report * world) :
  match fst ended with Raise e => is_IOError e = false | Return _ => True end ->
  caught ended = ended.
Proof.
  destruct ended as [[r | e] w]; cbn [fst caught]; [reflexivity |].
  intros ->. reflexivity.
Qed.

Lemma write_run (l : line) (w : world) :
  write l w = (Return tt, World (requests w) (file w ++ [l])).
Proof. reflexivity. Qed.

Lemma writerow_dict (fields : list string) (kv : list (string * value)) (w : world) :
  writerow fields (VDict kv) w =
  (Return tt,
   World (requests w)
         (file w ++ [Row (map (fun key => dict_get kv key (VStr "")) fields)])).
Proof.
  unfold writerow, bind, lift.
  assert (E : map_result (fun key => get (VDict kv) key (VStr "")) fields
              = Return (map (fun key => dict_get kv key (VStr "")) fields)).
  { induction fields as [| key fields IH]; [reflexivity |].
    cbn [map_result map]. rewrite IH. reflexivity. }
  rewrite E. reflexivity.
Qed.

Lemma writerow_requests (fields : list string) (rowdict : value) (w : world) :
  requests (snd (writerow fields rowdict w)) = requests w.
Proof.
  unfold writerow, bind, lift.
  destruct (map_result _ fields) as [cells | e]; reflexivity.
Qed.

(** [writerows] on a list of dicts writes one row per item. *)
Lemma for_each_writerow (fields : list string) (items : list value) (w : world) :
  forallb is_dict items = true ->
  for_each items (writerow fields) w =
  (Return tt, World (requests w) (file w ++ flat_map (row_of fields) items)).
Proof.
  revert w; induction items as [| item items IH]; intros w Hd; cbn [for_each flat_map].
  - unfold ret. rewrite app_nil_r, world_eta. reflexivity.
  - cbn [forallb] in Hd. apply andb_prop in Hd as [Hi Hd].
    destruct item; try discriminate Hi.
    unfold bind. rewrite writerow_dict, (IH _ Hd).
    cbn [requests file row_of]. rewrite <- app_assoc. reflexivity.
Qed.

Lemma writerows_dicts (fields : list string) (items : list value) (w : world) :
  forallb is_dict items = true ->
  writerows fields (VList items) w =
  (Return tt, World (requests w) (file w ++ flat_map (row_of fields) items)).
Proof.
  intros Hd. unfold writerows, bind, lift. cbn [iterate].
  apply for_each_writerow, Hd.
Qed.

(* ===================================================================== *)
(** * C1: the offsets of the remaining pages                              *)
(* ===================================================================== *)

Lemma ceil_div_spec (t p : Z) :
  0 < p -> (ceil_div t p - 1) * p < t <= ceil_div t p * p.
Proof.
  intros Hp. unfold ceil_div.
  pose proof (Z.div_mod (t + p - 1) p ltac:(lia)) as E.
  pose proof (Z.mod_pos_bound (t + p - 1) p Hp) as B.
  nia.
Qed.

Lemma range_length_offsets (p t : Z) :
  0 < p -> 0 <= t ->
  range_length p t p = if t =? 0 then 0 else ceil_div t p - 1.
Proof.
  intros Hp Ht. unfold range_length, ceil_div.
  destruct (Z.ltb_spec 0 p) as [_ | ?]; [| lia].
  destruct (Z.eqb_spec t 0) as [-> | Hne].
  - destruct (Z.ltb_spec p 0); [lia | reflexivity].
  - destruct (Z.ltb_spec p t) as [Hlt | Hge].
    + replace (t + p - 1) with ((t - p - 1) + 2 * p) by lia.
      rewrite Z.div_add by lia. lia.
    + replace (t + p - 1) with ((t - 1) + 1 * p) by lia.
      rewrite Z.div_add by lia. rewrite Z.div_small by lia. reflexivity.
Qed.

Lemma range_positive_step (p t : Z) :
  0 < p ->
  range p t p =
  Return (map (fun k => p * Z.of_nat (S k))
              (seq 0 (Z.to_nat (range_length p t p)))).
Proof.
  intros Hp. unfold range.
  destruct (Z.eqb_spec p 0); [lia |].
  f_equal. apply map_ext. intros k. lia.
Qed.





(* ===================================================================== *)
(** * C2: what crosses the boundary of [fetch_json]                       *)
(* ===================================================================== *)

(** C2, as stated, fails: a body that is not valid JSON makes
    [response.json()] raise [JSONDecodeError], which is not an
    [aiohttp.ClientError] and leaves [fetch_json]; and a body of another
    shape than object or array (the number 42) is returned as a success. *)
Lemma C2_fetch_json_raises_on_invalid_json :
  fetch_json invalid_json_session
             (VStr "https://dummyjson.com/products?limit=20&skip=0") start
  = (Raise JSONDecodeError,
     World [VStr "https://dummyjson.com/products?limit=20&skip=0"] [])
  /\ fetch_json number_session
                (VStr "https://dummyjson.com/products?limit=20&skip=0") start
     = (Return (VInt 42),
        World [VStr "https://dummyjson.com/products?limit=20&skip=0"] []).
Proof. split; reflexivity. Qed.

(** C2, amended.  [fetch_json] issues one request and writes nothing.  It
    returns [None] for every [aiohttp.ClientError]: one raised by the
    transport, the one [raise_for_status] raises for a status of 400 or
    more, one raised by [response.json()].  A decoded body is returned as
    it is, whatever its shape.  An exception of another class, raised by
    the transport or by the decoder, is raised to the caller; no
    [ClientError] ever is. *)
Theorem C2_fetch_json_boundary (s : session) (url : value) (w : world) :
  snd (fetch_json s url w) = World (requests w ++ [url]) (file w)
  /\ (forall e, fst (fetch_json s url w) = Raise e -> is_ClientError e = false)
  /\ (forall e, s url = Raise e -> is_ClientError e = true ->
                fst (fetch_json s url w) = Return VNone)
  /\ (forall resp, s url = Return resp -> 400 <= status resp ->
                   fst (fetch_json s url w) = Return VNone)
  /\ (forall resp e, s url = Return resp -> status resp < 400 ->
                     json resp = Raise e -> is_ClientError e = true ->
                     fst (fetch_json s url w) = Return VNone)
  /\ (forall resp body, s url = Return resp -> status resp < 400 ->
                        json resp = Return body ->
                        fst (fetch_json s url w) = Return body)
  /\ (forall e, is_ClientError e = false ->
                s url = Raise e
                \/ (exists resp, s url = Return resp /\ status resp < 400
                                 /\ json resp = Raise e) ->
                fst (fetch_json s url w) = Raise e).
Proof.
  rewrite fetch_json_run. cbn [fst snd]. rewrite fetched_eq.
  split; [reflexivity |].
  split.
  { intros e. destruct (s url) as [resp | e'].
    - destruct (400 <=? status resp); [discriminate |].
      destruct (json resp) as [body | e'']; [discriminate |].
      destruct (is_ClientError e'') eqn:E; [discriminate |].
      intros [= <-]. exact E.
    - destruct (is_ClientError e') eqn:E; [discriminate |].
      intros [= <-]. exact E. }
  split; [intros e -> ->; reflexivity |].
  split.
  { intros resp -> H. destruct (Z.leb_spec 400 (status resp)); [reflexivity | lia]. }
  split.
  { intros resp e -> H -> ->.
    destruct (Z.leb_spec 400 (status resp)); [lia | reflexivity]. }
  split.
  { intros resp body -> H ->.
    destruct (Z.leb_spec 400 (status resp)); [lia | reflexivity]. }
  intros e He [-> | [resp [-> [H ->]]]].
  - rewrite He. reflexivity.
  - destruct (Z.leb_spec 400 (status resp)); [lia |]. rewrite He. reflexivity.
Qed.

Lemma C2_fetch_json_boundary_witness :
  fst (fetch_json three_page_session
         (VStr "https://dummyjson.com/products?limit=20&skip=20") start)
  = Return VNone.
Proof.
  destruct (C2_fetch_json_boundary three_page_session
              (VStr "https://dummyjson.com/products?limit=20&skip=20") start)
    as [_ [_ [_ [Hstatus _]]]].
  apply (Hstatus (Response 500 (Return VNone))).
  - reflexivity.
  - cbn. lia.
Defined.

(* ===================================================================== *)
(** * C3: the header of the streamed file                                 *)
(* ===================================================================== *)

Lemma as_completed_singleton (sched : scheduler) (A : Type) (x : A) :
  as_completed sched A [x] = [x].
Proof.
  apply Permutation_length_1_inv, as_completed_perm.
Qed.

Lemma fields_eq_refl (fields : list string) :
  (if list_eq_dec string_dec fields fields then true else false) = true.
Proof. destruct (list_eq_dec string_dec fields fields); congruence. Qed.

Lemma header_invariant_row (fields : list string) (f : list line) (cells : list value) :
  f <> [] -> header_invariant fields f = true ->
  header_invariant fields (f ++ [Row cells]) = true.
Proof.
  destruct f as [| first rest]; [congruence |]. intros _.
  cbn [header_invariant app]. destruct first as [names | ?]; [| discriminate].
  intros H. apply andb_prop in H as [Hn Hr]. rewrite Hn. cbn [andb].
  rewrite forallb_app, Hr. reflexivity.
Qed.

(** The sibling loop of variant 3 tests the flag before every write: its
    file is empty, or starts with the header and holds only rows after
    it, in every state the run can end in. *)
Lemma V3_stream_header_invariant (fields : list string)
    (futures : list (result value)) (header_written : bool) (w : world) :
  header_invariant fields (file w) = true ->
  (header_written = true <-> file w <> []) ->
  header_invariant fields (file (snd (V3.stream fields futures header_written w)))
  = true.
Proof.
  revert header_written w.
  induction futures as [| future rest IH]; intros hw w Hinv Hflag;
    cbn [V3.stream].
  - exact Hinv.
  - destruct future as [v | e]; unfold bind at 1, lift; [| exact Hinv].
    destruct (truthy v); [| apply IH; assumption].
    assert (Hhead : exists w1, (if negb hw then writeheader fields else ret tt) w
                               = (Return tt, w1)
                               /\ header_invariant fields (file w1) = true
                               /\ file w1 <> []).
    { destruct hw; cbn [negb].
      - exists w. repeat split; [assumption | apply Hflag; reflexivity].
      - exists (World (requests w) (file w ++ [Header fields])).
        split; [reflexivity |]. cbn [file].
        destruct (file w) as [| l f] eqn:E.
        + cbn. rewrite fields_eq_refl. split; [reflexivity | discriminate].
        + exfalso. assert (false = true) by (apply Hflag; discriminate).
          discriminate. }
    destruct Hhead as [w1 [Hrun [Hinv1 Hne1]]].
    unfold bind at 1. rewrite Hrun.
    unfold bind at 1, lift.
    destruct (V3.processed_item fields v) as [row | e]; [| exact Hinv1].
    unfold bind at 1, writerow. unfold bind at 1, lift.
    destruct (map_result _ fields) as [cells | e]; [| exact Hinv1].
    rewrite write_run. apply IH; cbn [file].
    + apply header_invariant_row; assumption.
    + split; [intros _ | reflexivity].
      destruct (file w1); [congruence | discriminate].
Qed.

(** X1. In every run of variant 3, whatever the server answers and in
    whatever order the tasks complete, also when the run ends with an
    exception: the file is empty, or its first line is the header and
    every other line is a row. *)
Lemma V3_main_header_invariant (urls : list value) (fields : list string)
    (sched : scheduler) (s : session) :
  header_invariant fields (file (snd (V3.main urls fields sched s start))) = true.
Proof.
  unfold V3.main, except_IOError. rewrite snd_caught.
  unfold bind at 1. rewrite launch_run. unfold bind at 1.
  pose proof (V3_stream_header_invariant fields
                (as_completed sched _ (map (fetched s) (started sched _ urls)))
                false (World (requests start ++ started sched _ urls) (file start)))
    as H.
  destruct (V3.stream fields _ false _) as [[hw | e] w1]; cbn [snd ret] in *;
    apply H; cbn [file start]; try reflexivity;
    (split; [discriminate | congruence]).
Qed.

(** C3 at the failing input: the API reports 40 items and an empty first
    page, the page at offset 20 holds one item.  Variant 6 writes the
    header only with the first page, so the file ends with a data row as
    its first line and no header at all, and the run reports that no data
    was written. *)
Theorem C3_rows_without_header (sched : scheduler) :
  V6.main V6.configuration sched empty_first_page_session start
  = (Return NoDataWritten,
     World [VStr "https://dummyjson.com/products?limit=20&skip=0";
            VStr "https://dummyjson.com/products?limit=20&skip=20"]
           [Row [VInt 21; VStr ""; VStr ""; VStr ""; VStr ""; VStr ""]])
  /\ header_invariant (fields_to_extract V6.configuration)
       (file (snd (V6.main V6.configuration sched empty_first_page_session
                     start))) = false
  /\ count_headers
       (file (snd (V6.main V6.configuration sched empty_first_page_session
                     start))) = 0%nat.
Proof.
  assert (E : V6.main V6.configuration sched empty_first_page_session start
              = (Return NoDataWritten,
                 World [VStr "https://dummyjson.com/products?limit=20&skip=0";
                        VStr "https://dummyjson.com/products?limit=20&skip=20"]
                       [Row [VInt 21; VStr ""; VStr ""; VStr ""; VStr ""; VStr ""]])).
  { destruct sched as [ac perm st perm_st].
    assert (Hone : forall (A : Type) (x : A), ac A [x] = [x])
      by (intros; apply Permutation_length_1_inv, perm).
    assert (Hfirst : forall (A : Type) (x : A), st A [x] = [x])
      by (intros; apply Permutation_length_1_inv, perm_st).
    unfold V6.main, except_IOError. unfold bind at 1. rewrite fetch_json_run.
    replace (fetched empty_first_page_session
               (VStr (page_url V6.configuration 0)))
      with (Return (VDict [("total", VInt 40); ("products", VList [])]%string))
      by reflexivity.
    cbn [truthy negb]. unfold bind at 1, lift. cbn [get].
    unfold bind at 1. unfold bind at 1.
    replace (dict_get [("total", VInt 40); ("products", VList [])]%string
               (items_key V6.configuration) (VList []))
      with (VList []) by reflexivity.
    cbn [V6.write_first_page truthy ret]. unfold bind at 1.
    replace (urls_to_fetch V6.configuration
               (dict_get [("total", VInt 40); ("products", VList [])]%string
                  (total_key V6.configuration) (VInt 0)))
      with (Return [VStr "https://dummyjson.com/products?limit=20&skip=20"])
      by reflexivity.
    cbv iota beta. unfold bind at 1. cbn [started as_completed].
    rewrite Hfirst, launch_run. cbn [map]. unfold bind at 1. rewrite Hone.
    reflexivity. }
  rewrite E. repeat split.
Qed.

(* ===================================================================== *)
(** * Variant 6, step by step                                             *)
(* ===================================================================== *)

Lemma page_ok_items (cfg : config) (page : value) :
  page_ok cfg page = true ->
  exists kv, page = VDict kv
             /\ dict_get kv (items_key cfg) (VList []) = VList (items_of cfg page)
             /\ forallb is_dict (items_of cfg page) = true.
Proof.
  destruct page as [| | | | | | kv]; try discriminate. cbn [page_ok items_of].
  destruct (dict_get kv (items_key cfg) (VList [])) eqn:E; try discriminate.
  intros H. exists kv. rewrite E. repeat split. exact H.
Qed.

Lemma page_result_ok_cases (cfg : config) (future : result value) :
  page_result_ok cfg future = true ->
  exists page, future = Return page /\ (page = VNone \/ page_ok cfg page = true).
Proof.
  destruct future as [page | e]; [| discriminate]. intros H. exists page.
  split; [reflexivity |]. destruct page; auto.
Qed.

Lemma V6_write_first_page_ok (cfg : config) (page : value) (kv : list (string * value))
    (w : world) :
  page = VDict kv -> page_ok cfg page = true ->
  V6.write_first_page cfg (dict_get kv (items_key cfg) (VList [])) w =
  (Return (match items_of cfg page with [] => false | _ :: _ => true end),
   World (requests w) (file w ++ first_page_lines cfg page)).
Proof.
  intros -> Hok. destruct (page_ok_items cfg _ Hok) as [kv' [[= <-] [Hget Hd]]].
  rewrite Hget. unfold V6.write_first_page, first_page_lines.
  destruct (items_of cfg (VDict kv)) as [| item items] eqn:E; cbn [truthy].
  - unfold ret. rewrite app_nil_r, world_eta. reflexivity.
  - unfold bind at 1, writeheader. rewrite write_run.
    unfold bind at 1. rewrite writerows_dicts by exact Hd.
    cbn [bind ret requests file]. unfold page_rows. rewrite E.
    rewrite <- app_assoc. reflexivity.
Qed.

(** A failed or well-formed page never makes the loop body raise; it adds
    the rows of its items, none for a failed page. *)
Lemma V6_stream_page_ok (cfg : config) (page : value) (w : world) :
  page_result_ok cfg (Return page) = true ->
  V6.stream_page cfg page w =
  (Return tt, World (requests w) (file w ++ page_rows cfg page)).
Proof.
  intros H. apply page_result_ok_cases in H as [page' [[= <-] [-> | Hok]]].
  - cbn. rewrite app_nil_r, world_eta. reflexivity.
  - destruct (page_ok_items cfg _ Hok) as [kv [-> [Hget Hd]]].
    unfold V6.stream_page, page_rows.
    destruct kv as [| binding kv'].
    + cbn. rewrite app_nil_r, world_eta. reflexivity.
    + cbn [truthy]. unfold bind, lift. cbn [get]. rewrite Hget.
      destruct (items_of cfg (VDict (binding :: kv'))) as [| item items] eqn:E.
      * cbn. rewrite app_nil_r, world_eta. reflexivity.
      * cbn [truthy]. rewrite writerows_dicts by exact Hd. reflexivity.
Qed.

Lemma V6_stream_pages_ok (cfg : config) (futures : list (result value)) (w : world) :
  forallb (page_result_ok cfg) futures = true ->
  V6.stream_pages cfg futures w =
  (Return tt,
   World (requests w)
         (file w ++ flat_map (fun future => page_rows cfg (page_of future))
                             futures)).
Proof.
  unfold V6.stream_pages. revert w.
  induction futures as [| future rest IH]; intros w H; cbn [for_each flat_map].
  - unfold ret. rewrite app_nil_r, world_eta. reflexivity.
  - cbn [forallb] in H. apply andb_prop in H as [Hf Hr].
    destruct (page_result_ok_cases cfg _ Hf) as [page [-> _]].
    unfold bind at 1. unfold bind at 1, lift.
    rewrite (V6_stream_page_ok cfg page w Hf). rewrite (IH _ Hr).
    cbn [requests file page_of]. rewrite <- app_assoc. reflexivity.
Qed.

(** [main] of variant 6 as a function of what the tasks end with. *)
Lemma V6_main_run (cfg : config) (sched : scheduler) (s : session) (w : world) :
  V6.main cfg sched s w =
  caught
  (let w0 := World (requests w ++ [VStr (page_url cfg 0)]) (file w) in
  match page_at cfg s 0 with
  | Raise e => (Raise e, w0)
  | Return initial_response =>
      if truthy initial_response then
        match initial_response with
        | VDict kv =>
            match V6.write_first_page cfg
                    (dict_get kv (items_key cfg) (VList [])) w0 with
            | (Raise e, w1) => (Raise e, w1)
            | (Return header_written, w1) =>
                match urls_to_fetch cfg (dict_get kv (total_key cfg) (VInt 0)) with
                | Raise e => (Raise e, w1)
                | Return [] => (Return AllOnFirstPage, w1)
                | Return (url :: urls) =>
                    match V6.stream_pages cfg
                            (as_completed sched _
                               (map (fetched s)
                                    (started sched _ (url :: urls))))
                            (World (requests w1 ++ started sched _ (url :: urls))
                                   (file w1)) with
                    | (Return _, w2) => (Return (final_report header_written), w2)
                    | (Raise e, w2) => (Raise e, w2)
                    end
                end
            end
        | _ => (Raise AttributeError, w0)
        end
      else (Return FailedInitialPage, w0)
  end).
Proof.
  unfold V6.main, except_IOError, page_at. f_equal.
  cbv zeta. unfold bind at 1. rewrite fetch_json_run.
  destruct (fetched s (VStr (page_url cfg 0))) as [initial | e]; [| reflexivity].
  destruct (truthy initial) eqn:Ht; cbn [negb]; [| reflexivity].
  destruct initial; try reflexivity.
  unfold bind at 1, lift. cbn [get]. unfold bind at 1. unfold bind at 1.
  destruct (V6.write_first_page cfg _ _) as [[hw | e] w1]; [| reflexivity].
  unfold bind at 1.
  destruct (urls_to_fetch cfg _) as [[| url urls] | e]; try reflexivity.
  unfold bind at 1. rewrite launch_run. unfold bind at 1.
  destruct (V6.stream_pages cfg _ _) as [[[] | e] w2]; reflexivity.
Qed.

Lemma forallb_Permutation {A : Type} (f : A -> bool) (l l' : list A) :
  Permutation l l' -> forallb f l = true -> forallb f l' = true.
Proof.
  intros P H. apply forallb_forall. intros x Hx.
  apply (proj1 (forallb_forall f l) H), (Permutation_in x (Permutation_sym P) Hx).
Qed.

Lemma flat_map_Permutation {A B : Type} (f : A -> list B) (l l' : list A) :
  Permutation l l' -> Permutation (flat_map f l) (flat_map f l').
Proof.
  induction 1 as [| x l l' _ IH | x y l | l l' l'' _ IH1 _ IH2]; cbn [flat_map].
  - constructor.
  - apply Permutation_app_head, IH.
  - rewrite !app_assoc. apply Permutation_app_tail, Permutation_app_comm.
  - exact (Permutation_trans IH1 IH2).
Qed.

Lemma as_completed_nil (sched : scheduler) (A : Type) :
  as_completed sched A [] = [].
Proof. apply Permutation_nil, as_completed_perm. Qed.

Lemma urls_to_fetch_shape (cfg : config) (total_items : value) (urls : list value) :
  urls_to_fetch cfg total_items = Return urls ->
  exists starts, urls = map (fun o => VStr (page_url cfg o)) starts.
Proof.
  unfold urls_to_fetch.
  destruct (range_to _ _ _) as [starts | e]; [| discriminate].
  intros [= <-]. exists starts. reflexivity.
Qed.

Lemma urls_to_fetch_offsets (cfg : config) (kv : list (string * value)) :
  max_results_per_page cfg <> 0 -> total_ok cfg (VDict kv) = true ->
  urls_to_fetch cfg (dict_get kv (total_key cfg) (VInt 0)) =
  Return (map (fun o => VStr (page_url cfg o))
              (remaining_offsets cfg (VDict kv))).
Proof.
  intros Hp Ht. unfold urls_to_fetch, remaining_offsets, total_ok, range_to in *.
  destruct (index (dict_get kv (total_key cfg) (VInt 0))) as [t | e];
    [| discriminate Ht].
  unfold range. destruct (Z.eqb_spec (max_results_per_page cfg) 0); [contradiction |].
  reflexivity.
Qed.

Lemma remaining_offsets_empty_dict (cfg : config) :
  max_results_per_page cfg <> 0 -> remaining_offsets cfg (VDict []) = [].
Proof.
  intros Hp. unfold remaining_offsets, range_to. cbn [dict_get assoc index].
  unfold range, range_length.
  destruct (Z.eqb_spec (max_results_per_page cfg) 0); [contradiction |].
  destruct (Z.ltb_spec 0 (max_results_per_page cfg)); [| reflexivity].
  destruct (Z.ltb_spec (max_results_per_page cfg) 0); [lia | reflexivity].
Qed.

Lemma futures_ok (cfg : config) (s : session) (sched : scheduler) (starts : list Z) :
  (forall offset, page_result_ok cfg (page_at cfg s offset) = true) ->
  forallb (page_result_ok cfg)
          (as_completed sched _
             (map (fetched s)
                  (started sched _ (map (fun o => VStr (page_url cfg o)) starts))))
  = true.
Proof.
  intros Hok. eapply forallb_Permutation; [apply as_completed_perm |].
  apply forallb_forall. intros future Hin.
  apply in_map_iff in Hin as [url [<- Hin]].
  apply (Permutation_in _ (Permutation_sym (started_perm sched _ _))) in Hin.
  apply in_map_iff in Hin as [o [<- _]]. apply Hok.
Qed.

(* ===================================================================== *)
(** * C4: a failed page does not stop the batch                           *)
(* ===================================================================== *)

(** C4, as stated, fails: the page at offset 20 fails with a body that is
    not JSON, the [JSONDecodeError] leaves [fetch_json] and ends the run
    of variant 6; the page at offset 40 was fetched, and its row is not
    in the file. *)
Lemma C4_raising_page_ends_the_run :
  V6.main V6.configuration in_submission_order raising_session start
  = (Raise JSONDecodeError,
     World [VStr "https://dummyjson.com/products?limit=20&skip=0";
            VStr "https://dummyjson.com/products?limit=20&skip=20";
            VStr "https://dummyjson.com/products?limit=20&skip=40"]
           [Header ["id"; "title"; "brand"; "category"; "price"; "rating"]%string;
            Row [VInt 1; VStr "item"; VStr ""; VStr ""; VStr ""; VStr ""];
            Row [VInt 2; VStr "item"; VStr ""; VStr ""; VStr ""; VStr ""]])
  /\ fetched raising_session
       (VStr "https://dummyjson.com/products?limit=20&skip=40")
     = Return (VDict [("products", VList [product 41])]%string).
Proof. split; reflexivity. Qed.

(** C4, amended.  Let every page of the API be a [Failure] in the sense
    of [fetch_json] (it returned [None]: the fetch failed with an
    [aiohttp.ClientError]) or a well-formed [Success], in any pattern.
    Then the run of variant 6 issues the request of every remaining page,
    once each, in the order in which [as_completed] starts them, returns
    normally, and the file holds the lines of the first page followed by
    the rows of every successful page, in completion order; a failed
    page adds no row. *)
Theorem C4_failed_page_is_skipped (cfg : config) (sched : scheduler) (s : session) :
  max_results_per_page cfg <> 0 ->
  total_ok cfg (page_of (page_at cfg s 0)) = true ->
  (forall offset, page_result_ok cfg (page_at cfg s offset) = true) ->
  exists (r : report) (urls : list value) (lines : list line),
    V6.main cfg sched s start
    = (Return r, World (VStr (page_url cfg 0) :: urls) lines)
    /\ Permutation
         (map (fun o => VStr (page_url cfg o))
              (remaining_offsets cfg (page_of (page_at cfg s 0))))
         urls
    /\ lines
       = first_page_lines cfg (page_of (page_at cfg s 0))
           ++ flat_map (fun future => page_rows cfg (page_of future))
                (as_completed sched _ (map (fetched s) urls))
    /\ (forall o page row,
           In o (remaining_offsets cfg (page_of (page_at cfg s 0))) ->
           page_at cfg s o = Return page ->
           In row (page_rows cfg page) -> In row lines)
    /\ page_rows cfg VNone = [].
Proof.
  intros Hp Ht Hok.
  assert (Hin : forall urls lines,
    Permutation
      (map (fun o => VStr (page_url cfg o))
           (remaining_offsets cfg (page_of (page_at cfg s 0)))) urls ->
    lines = first_page_lines cfg (page_of (page_at cfg s 0))
           ++ flat_map (fun future => page_rows cfg (page_of future))
                (as_completed sched _ (map (fetched s) urls)) ->
    forall o page row,
           In o (remaining_offsets cfg (page_of (page_at cfg s 0))) ->
           page_at cfg s o = Return page ->
           In row (page_rows cfg page) -> In row lines).
  { intros urls lines P -> o page row Ho Hpage Hrow. apply in_or_app. right.
    apply in_flat_map. exists (Return page). split; [| exact Hrow].
    apply (Permutation_in _ (as_completed_perm sched _ _)).
    rewrite <- Hpage. unfold page_at. apply in_map.
    apply (Permutation_in _ P).
    apply (in_map (fun o0 => VStr (page_url cfg o0))), Ho. }
  rewrite V6_main_run. cbv zeta. cbn [requests file start app].
  destruct (page_result_ok_cases cfg _ (Hok 0)) as [initial [E Hinit]].
  rewrite E in *. cbn [page_of] in *.
  destruct Hinit as [-> | Hinit].
  - cbn [truthy remaining_offsets map first_page_lines items_of caught] in *.
    exists FailedInitialPage, [], []. rewrite as_completed_nil.
    repeat split; [constructor |]. intros o page row [].
  - destruct (page_ok_items cfg _ Hinit) as [kv [-> [Hget Hd]]].
    destruct kv as [| binding kv'].
    + cbn [truthy caught]. rewrite (remaining_offsets_empty_dict cfg Hp) in *.
      exists FailedInitialPage, [], []. cbn [map]. rewrite as_completed_nil.
      repeat split; [constructor |]. intros o page row [].
    + cbn [truthy].
      rewrite (V6_write_first_page_ok cfg _ _ _ eq_refl Hinit).
      rewrite (urls_to_fetch_offsets cfg _ Hp Ht). cbn [requests file app].
      destruct (remaining_offsets cfg (VDict (binding :: kv'))) as [| o offs] eqn:Eo.
      * cbn [map caught].
        exists AllOnFirstPage, [], (first_page_lines cfg (VDict (binding :: kv'))).
        cbn [map]. rewrite as_completed_nil. cbn [flat_map].
        split; [reflexivity |]. split; [constructor |].
        split; [symmetry; apply app_nil_r |].
        split; [| reflexivity]. intros o page row [].
      * cbn [map].
        change (VStr (page_url cfg o) :: map (fun o0 => VStr (page_url cfg o0)) offs)
          with (map (fun o0 => VStr (page_url cfg o0)) (o :: offs)).
        rewrite V6_stream_pages_ok by (apply futures_ok, Hok).
        cbn [requests file caught].
        eexists _, _, _. split; [reflexivity |].
        split; [apply started_perm |].
        split; [reflexivity |]. split; [| reflexivity].
        apply (Hin _ _ (started_perm sched _ _)). reflexivity.
Qed.

Lemma serve_ok (cfg : config) (table : list (string * result response)) :
  forallb (fun entry => page_result_ok cfg (fetched (fun _ => snd entry) VNone))
          table = true ->
  forall url, page_result_ok cfg (fetched (serve table) url) = true.
Proof.
  intros Htable url. rewrite fetched_eq. unfold serve.
  destruct url as [| | | | u | |]; try reflexivity.
  induction table as [| [known outcome] rest IH]; cbn [lookup_url].
  - reflexivity.
  - cbn [forallb snd] in Htable. apply andb_prop in Htable as [Hentry Hrest].
    destruct (String.eqb known u).
    + rewrite fetched_eq in Hentry. exact Hentry.
    + apply IH, Hrest.
Qed.

Lemma C4_failed_page_is_skipped_witness :
  exists r : report,
    fst (V6.main V6.configuration last_submitted_first three_page_session start)
    = Return r.
Proof.
  destruct (C4_failed_page_is_skipped V6.configuration last_submitted_first
              three_page_session) as [r [urls [lines [E _]]]].
  - cbn. discriminate.
  - vm_compute. reflexivity.
  - intros offset. apply serve_ok. vm_compute. reflexivity.
  - exists r. rewrite E. reflexivity.
Defined.

(* ===================================================================== *)
(** * Variant 7, step by step                                             *)
(* ===================================================================== *)

Lemma get_item_data_dict (raw_item : list (string * value)) :
  V7.get_item_data (VDict raw_item) = Return (VDict (parsed_dict raw_item)).
Proof. reflexivity. Qed.

Lemma get_item_data_items (fields : list string) (items : list value) :
  forallb is_dict items = true ->
  exists parsed_items,
    map_result V7.get_item_data items = Return parsed_items
    /\ forallb is_dict parsed_items = true
    /\ flat_map (row_of fields) parsed_items
       = flat_map (parsed_row fields) items.
Proof.
  induction items as [| item items IH]; intros Hd.
  - exists []. repeat split.
  - cbn [forallb] in Hd. apply andb_prop in Hd as [Hi Hd].
    destruct item as [| | | | | | kv]; try discriminate Hi.
    destruct (IH Hd) as [parsed [Hmap [Hdp Hrows]]].
    exists (VDict (parsed_dict kv) :: parsed). cbn [map_result].
    rewrite get_item_data_dict, Hmap. repeat split.
    + exact Hdp.
    + cbn [flat_map]. rewrite Hrows. unfold parsed_row at 2.
      rewrite get_item_data_dict. reflexivity.
Qed.

Lemma V7_write_first_page_ok (cfg : config) (page : value) (kv : list (string * value))
    (w : world) :
  page = VDict kv -> page_ok cfg page = true ->
  V7.write_first_page cfg (dict_get kv (items_key cfg) (VList [])) w =
  (Return (match items_of cfg page with [] => false | _ :: _ => true end),
   World (requests w) (file w ++ parsed_first_page_lines cfg page)).
Proof.
  intros -> Hok. destruct (page_ok_items cfg _ Hok) as [kv' [[= <-] [Hget Hd]]].
  rewrite Hget. unfold V7.write_first_page, parsed_first_page_lines, parsed_rows.
  destruct (get_item_data_items (fields_to_extract cfg) _ Hd)
    as [parsed [Hmap [Hdp Hrows]]].
  destruct (items_of cfg (VDict kv)) as [| item items] eqn:E; cbn [truthy].
  - unfold ret. rewrite app_nil_r, world_eta. reflexivity.
  - unfold bind at 1, lift, V7.parse_items. cbn [iterate and_then].
    rewrite Hmap. cbn [and_then].
    unfold bind at 1, writeheader. rewrite write_run.
    unfold bind at 1. rewrite writerows_dicts by exact Hdp.
    cbn [bind ret requests file]. rewrite Hrows.
    rewrite <- app_assoc. reflexivity.
Qed.

Lemma V7_stream_page_ok (cfg : config) (page : value) (w : world) :
  page_result_ok cfg (Return page) = true ->
  V7.stream_page cfg page w =
  (Return tt, World (requests w) (file w ++ parsed_rows cfg page)).
Proof.
  intros H. apply page_result_ok_cases in H as [page' [[= <-] [-> | Hok]]].
  - cbn. rewrite app_nil_r, world_eta. reflexivity.
  - destruct (page_ok_items cfg _ Hok) as [kv [-> [Hget Hd]]].
    unfold V7.stream_page, parsed_rows.
    destruct (get_item_data_items (fields_to_extract cfg) _ Hd)
      as [parsed [Hmap [Hdp Hrows]]].
    destruct kv as [| binding kv'].
    + cbn. rewrite app_nil_r, world_eta. reflexivity.
    + cbn [truthy]. unfold bind at 1, lift. cbn [get]. rewrite Hget.
      destruct (items_of cfg (VDict (binding :: kv'))) as [| item items] eqn:E.
      * cbn. rewrite app_nil_r, world_eta. reflexivity.
      * cbn [truthy]. unfold bind at 1, V7.parse_items. cbn [iterate and_then].
        rewrite Hmap. cbn [and_then].
        rewrite writerows_dicts by exact Hdp. rewrite Hrows. reflexivity.
Qed.

Lemma V7_stream_pages_ok (cfg : config) (futures : list (result value)) (w : world) :
  forallb (page_result_ok cfg) futures = true ->
  V7.stream_pages cfg futures w =
  (Return tt,
   World (requests w)
         (file w ++ flat_map (fun future => parsed_rows cfg (page_of future))
                             futures)).
Proof.
  unfold V7.stream_pages. revert w.
  induction futures as [| future rest IH]; intros w H; cbn [for_each flat_map].
  - unfold ret. rewrite app_nil_r, world_eta. reflexivity.
  - cbn [forallb] in H. apply andb_prop in H as [Hf Hr].
    destruct (page_result_ok_cases cfg _ Hf) as [page [-> _]].
    unfold bind at 1. unfold bind at 1, lift.
    rewrite (V7_stream_page_ok cfg page w Hf). rewrite (IH _ Hr).
    cbn [requests file page_of]. rewrite <- app_assoc. reflexivity.
Qed.

(** [main] of variant 7 as a function of what the tasks end with. *)
Lemma V7_main_run (cfg : config) (sched : scheduler) (s : session) (w : world) :
  V7.main cfg sched s w =
  caught
  (let w0 := World (requests w ++ [VStr (page_url cfg 0)]) (file w) in
  match page_at cfg s 0 with
  | Raise e => (Raise e, w0)
  | Return initial_response =>
      if truthy initial_response then
        match initial_response with
        | VDict kv =>
            match V7.write_first_page cfg
                    (dict_get kv (items_key cfg) (VList [])) w0 with
            | (Raise e, w1) => (Raise e, w1)
            | (Return header_written, w1) =>
                match urls_to_fetch cfg (dict_get kv (total_key cfg) (VInt 0)) with
                | Raise e => (Raise e, w1)
                | Return [] => (Return AllOnFirstPage, w1)
                | Return (url :: urls) =>
                    match V7.stream_pages cfg
                            (as_completed sched _
                               (map (fetched s)
                                    (started sched _ (url :: urls))))
                            (World (requests w1 ++ started sched _ (url :: urls))
                                   (file w1)) with
                    | (Return _, w2) => (Return (final_report header_written), w2)
                    | (Raise e, w2) => (Raise e, w2)
                    end
                end
            end
        | _ => (Raise AttributeError, w0)
        end
      else (Return FailedInitialPage, w0)
  end).
Proof.
  unfold V7.main, except_IOError, page_at. f_equal.
  cbv zeta. unfold bind at 1. rewrite fetch_json_run.
  destruct (fetched s (VStr (page_url cfg 0))) as [initial | e]; [| reflexivity].
  destruct (truthy initial) eqn:Ht; cbn [negb]; [| reflexivity].
  destruct initial; try reflexivity.
  unfold bind at 1, lift. cbn [get]. unfold bind at 1. unfold bind at 1.
  destruct (V7.write_first_page cfg _ _) as [[hw | e] w1]; [| reflexivity].
  unfold bind at 1.
  destruct (urls_to_fetch cfg _) as [[| url urls] | e]; try reflexivity.
  unfold bind at 1. rewrite launch_run. unfold bind at 1.
  destruct (V7.stream_pages cfg _ _) as [[[] | e] w2]; reflexivity.
Qed.

(* ===================================================================== *)
(** * C6: the completion order only permutes the rows                     *)
(* ===================================================================== *)

Lemma completion_orders (sched1 sched2 : scheduler) (A B : Type) (f : A -> B)
    (l : list A) :
  Permutation (as_completed sched1 B (map f (started sched1 A l)))
              (as_completed sched2 B (map f (started sched2 A l))).
Proof.
  assert (H : forall sched,
             Permutation (map f l) (as_completed sched B (map f (started sched A l)))).
  { intros sched. eapply Permutation_trans; [| apply as_completed_perm].
    apply Permutation_map, started_perm. }
  exact (Permutation_trans (Permutation_sym (H sched1)) (H sched2)).
Qed.

(** The loop of step 4 on two orders of the same page results. *)
Lemma V6_stream_pages_order (cfg : config) (futures futures' : list (result value))
    (w : world) :
  Permutation futures futures' ->
  forallb (page_result_ok cfg) futures = true ->
  V6.stream_pages cfg futures w
  = (Return tt, snd (V6.stream_pages cfg futures w))
  /\ V6.stream_pages cfg futures' w
     = (Return tt, snd (V6.stream_pages cfg futures' w))
  /\ Permutation (file (snd (V6.stream_pages cfg futures w)))
                 (file (snd (V6.stream_pages cfg futures' w))).
Proof.
  intros P H. pose proof (forallb_Permutation _ _ _ P H) as H'.
  rewrite (V6_stream_pages_ok cfg futures w H).
  rewrite (V6_stream_pages_ok cfg futures' w H'). cbn [snd file].
  repeat split. apply Permutation_app_head, flat_map_Permutation, P.
Qed.

Lemma V6_completion_order (cfg : config) (s : session) (sched1 sched2 : scheduler) :
  (forall offset, page_result_ok cfg (page_at cfg s offset) = true) ->
  fst (V6.main cfg sched1 s start) = fst (V6.main cfg sched2 s start)
  /\ Permutation (file (snd (V6.main cfg sched1 s start)))
                 (file (snd (V6.main cfg sched2 s start))).
Proof.
  intros Hok. rewrite !V6_main_run. cbv zeta.
  destruct (page_at cfg s 0) as [initial | e]; [| repeat split; reflexivity].
  destruct (truthy initial); [| repeat split; reflexivity].
  destruct initial; try (repeat split; reflexivity).
  destruct (V6.write_first_page cfg _ _) as [[hw | e] w1];
    [| repeat split; reflexivity].
  destruct (urls_to_fetch cfg _) as [[| url urls] | e] eqn:Eu;
    try (repeat split; reflexivity).
  destruct (urls_to_fetch_shape cfg _ _ Eu) as [starts ->].
  rewrite !V6_stream_pages_ok by (apply futures_ok, Hok).
  cbn [caught fst snd requests file]. split; [reflexivity |].
  apply Permutation_app_head, flat_map_Permutation, completion_orders.
Qed.

Lemma V7_completion_order (cfg : config) (s : session) (sched1 sched2 : scheduler) :
  (forall offset, page_result_ok cfg (page_at cfg s offset) = true) ->
  fst (V7.main cfg sched1 s start) = fst (V7.main cfg sched2 s start)
  /\ Permutation (file (snd (V7.main cfg sched1 s start)))
                 (file (snd (V7.main cfg sched2 s start))).
Proof.
  intros Hok. rewrite !V7_main_run. cbv zeta.
  destruct (page_at cfg s 0) as [initial | e]; [| repeat split; reflexivity].
  destruct (truthy initial); [| repeat split; reflexivity].
  destruct initial; try (repeat split; reflexivity).
  destruct (V7.write_first_page cfg _ _) as [[hw | e] w1];
    [| repeat split; reflexivity].
  destruct (urls_to_fetch cfg _) as [[| url urls] | e] eqn:Eu;
    try (repeat split; reflexivity).
  destruct (urls_to_fetch_shape cfg _ _ Eu) as [starts ->].
  rewrite !V7_stream_pages_ok by (apply futures_ok, Hok).
  cbn [caught fst snd requests file]. split; [reflexivity |].
  apply Permutation_app_head, flat_map_Permutation, completion_orders.
Qed.

(** C6, as stated, fails: when the page at offset 20 raises past
    [fetch_json], the run that receives it first writes no row of the
    page at offset 40, the run that receives it last does; the two files
    are no permutations of each other. *)
Lemma C6_rows_depend_on_order_when_a_page_raises :
  file (snd (V6.main V6.configuration in_submission_order raising_session start))
  = [Header ["id"; "title"; "brand"; "category"; "price"; "rating"]%string;
     Row [VInt 1; VStr "item"; VStr ""; VStr ""; VStr ""; VStr ""];
     Row [VInt 2; VStr "item"; VStr ""; VStr ""; VStr ""; VStr ""]]
  /\ file (snd (V6.main V6.configuration last_submitted_first raising_session
                  start))
     = [Header ["id"; "title"; "brand"; "category"; "price"; "rating"]%string;
        Row [VInt 1; VStr "item"; VStr ""; VStr ""; VStr ""; VStr ""];
        Row [VInt 2; VStr "item"; VStr ""; VStr ""; VStr ""; VStr ""];
        Row [VInt 41; VStr "item"; VStr ""; VStr ""; VStr ""; VStr ""]]
  /\ ~ Permutation
         (file (snd (V6.main V6.configuration in_submission_order
                       raising_session start)))
         (file (snd (V6.main V6.configuration last_submitted_first
                       raising_session start))).
Proof.
  split; [reflexivity |]. split; [reflexivity |].
  intros P. apply Permutation_length in P. vm_compute in P. discriminate P.
Qed.

(** C6, amended.  Fix the page results of a run, each a [Failure] in the
    sense of [fetch_json] (it returned [None]) or a well-formed [Success].
    Two runs of variant 6, or of variant 7, that differ only in the order
    in which the scheduler starts and delivers the pages end the same
    way and write the same lines up to their order: the two files are
    permutations of each other. *)
Theorem C6_completion_order_independence
    (cfg : config) (s : session) (sched1 sched2 : scheduler) :
  (forall offset, page_result_ok cfg (page_at cfg s offset) = true) ->
  (fst (V6.main cfg sched1 s start) = fst (V6.main cfg sched2 s start)
   /\ Permutation (file (snd (V6.main cfg sched1 s start)))
                  (file (snd (V6.main cfg sched2 s start))))
  /\ (fst (V7.main cfg sched1 s start) = fst (V7.main cfg sched2 s start)
      /\ Permutation (file (snd (V7.main cfg sched1 s start)))
                     (file (snd (V7.main cfg sched2 s start)))).
Proof.
  intros Hok.
  destruct (V6_completion_order cfg s sched1 sched2 Hok) as [H6 P6].
  destruct (V7_completion_order cfg s sched1 sched2 Hok) as [H7 P7].
  repeat split; assumption.
Qed.

Lemma C6_completion_order_independence_witness :
  Permutation
    (file (snd (V6.main V6.configuration in_submission_order
                  complete_session start)))
    (file (snd (V6.main V6.configuration last_submitted_first
                  complete_session start))).
Proof.
  apply (C6_completion_order_independence V6.configuration complete_session
           in_submission_order last_submitted_first).
  intros offset. apply serve_ok. vm_compute. reflexivity.
Defined.

(** The two runs of the example do differ in the order of their rows. *)
Lemma completion_order_shows_in_the_file :
  file (snd (V6.main V6.configuration in_submission_order complete_session start))
  = [Header ["id"; "title"; "brand"; "category"; "price"; "rating"]%string;
     Row [VInt 1; VStr "item"; VStr ""; VStr ""; VStr ""; VStr ""];
     Row [VInt 2; VStr "item"; VStr ""; VStr ""; VStr ""; VStr ""];
     Row [VInt 21; VStr "item"; VStr ""; VStr ""; VStr ""; VStr ""];
     Row [VInt 41; VStr "item"; VStr ""; VStr ""; VStr ""; VStr ""]]
  /\ file (snd (V6.main V6.configuration last_submitted_first complete_session
                  start))
     = [Header ["id"; "title"; "brand"; "category"; "price"; "rating"]%string;
        Row [VInt 1; VStr "item"; VStr ""; VStr ""; VStr ""; VStr ""];
        Row [VInt 2; VStr "item"; VStr ""; VStr ""; VStr ""; VStr ""];
        Row [VInt 41; VStr "item"; VStr ""; VStr ""; VStr ""; VStr ""];
        Row [VInt 21; VStr "item"; VStr ""; VStr ""; VStr ""; VStr ""]].
Proof. split; reflexivity. Qed.

(* ===================================================================== *)
(** * C5: the page size is not validated                                  *)
(* ===================================================================== *)

Lemma for_each_writerow_requests (fields : list string) (items : list value)
    (w : world) :
  requests (snd (for_each items (writerow fields) w)) = requests w.
Proof.
  revert w; induction items as [| item items IH]; intros w; cbn [for_each].
  - reflexivity.
  - unfold bind. pose proof (writerow_requests fields item w) as H.
    destruct (writerow fields item w) as [[[] | e] w1]; cbn [snd] in *.
    + rewrite IH. exact H.
    + exact H.
Qed.

Lemma writerows_requests (fields : list string) (rows : value) (w : world) :
  requests (snd (writerows fields rows w)) = requests w.
Proof.
  unfold writerows, bind, lift.
  destruct (iterate rows) as [items | e]; [| reflexivity].
  apply for_each_writerow_requests.
Qed.


Lemma V6_stream_pages_requests (cfg : config) (futures : list (result value))
    (w : world) :
  requests (snd (V6.stream_pages cfg futures w)) = requests w.
Proof.
  unfold V6.stream_pages. revert w.
  induction futures as [| future rest IH]; intros w; cbn [for_each].
  - reflexivity.
  - unfold bind at 1. unfold bind at 1, lift.
    destruct future as [page | e]; [| reflexivity].
    assert (H : requests (snd (V6.stream_page cfg page w)) = requests w).
    { unfold V6.stream_page. destruct (truthy page); [| reflexivity].
      unfold bind, lift. destruct (get page _ _) as [items | e]; [| reflexivity].
      destruct (truthy items); [| reflexivity]. apply writerows_requests. }
    destruct (V6.stream_page cfg page w) as [[[] | e] w1]; cbn [snd] in *.
    + rewrite IH. exact H.
    + exact H.
Qed.





(* ===================================================================== *)
(** * C7 and C8: the item transformer                                     *)
(* ===================================================================== *)

Lemma map_result_Permutation {A B : Type} (f : A -> result B) (l l' : list A) :
  Permutation l l' ->
  forall out, map_result f l = Return out ->
              exists out', map_result f l' = Return out' /\ Permutation out out'.
Proof.
  induction 1 as [| x l l' _ IH | x y l | l l' l'' _ IH1 _ IH2]; intros out.
  - intros [= <-]. exists []. split; [reflexivity | constructor].
  - cbn [map_result]. destruct (f x) as [b | e]; [| discriminate].
    cbn [and_then]. destruct (map_result f l) as [bs | e]; [| discriminate].
    intros [= <-]. destruct (IH bs eq_refl) as [bs' [-> P]].
    exists (b :: bs'). split; [reflexivity | constructor; exact P].
  - cbn [map_result].
    destruct (f y) as [by_ | e]; [| discriminate]. cbn [and_then].
    destruct (f x) as [bx | e]; [| discriminate]. cbn [and_then].
    destruct (map_result f l) as [bs | e]; [| discriminate].
    intros [= <-]. exists (bx :: by_ :: bs). split; [reflexivity | constructor].
  - intros H. destruct (IH1 out H) as [out' [H' P1]].
    destruct (IH2 out' H') as [out'' [H'' P2]].
    exists out''. split; [exact H'' | exact (Permutation_trans P1 P2)].
Qed.

(** C7, as stated, fails: applied to its own output for the item
    [{"id": 1}], the transformer loses the product id. *)
Lemma C7_second_application_differs :
  apply_twice item_with_id <> V7.get_item_data item_with_id.
Proof. vm_compute. discriminate. Qed.

(** C7, amended.  The transformer is a function of the item alone, so
    processing an item set in another order gives the same outputs, in
    that order.  It is not idempotent under composition: a second
    application keeps [category] and sets the five other fields to [None];
    it agrees with the first one exactly when those five fields were
    already [None], and a third application changes nothing more. *)
Theorem C7_transformer_reapplied (raw_item : list (string * value)) :
  apply_twice (VDict raw_item)
  = Return (VDict [("product_id", VNone); ("product_name", VNone);
                   ("brand_name", VNone);
                   ("category", dict_get raw_item "category" VNone);
                   ("price_usd", VNone); ("customer_rating", VNone)]%string)
  /\ (apply_twice (VDict raw_item) = V7.get_item_data (VDict raw_item)
      <-> dict_get raw_item "id" VNone = VNone
          /\ dict_get raw_item "title" VNone = VNone
          /\ dict_get raw_item "brand" VNone = VNone
          /\ dict_get raw_item "price" VNone = VNone
          /\ dict_get raw_item "rating" VNone = VNone)
  /\ (let* twice := apply_twice (VDict raw_item) in V7.get_item_data twice)
     = apply_twice (VDict raw_item)
  /\ (forall items items' out,
         Permutation items items' ->
         map_result V7.get_item_data items = Return out ->
         exists out', map_result V7.get_item_data items' = Return out'
                      /\ Permutation out out').
Proof.
  split; [reflexivity |].
  split.
  { change (apply_twice (VDict raw_item))
      with (Return (VDict [("product_id", VNone); ("product_name", VNone);
                           ("brand_name", VNone);
                           ("category", dict_get raw_item "category" VNone);
                           ("price_usd", VNone);
                           ("customer_rating", VNone)]%string)).
    rewrite get_item_data_dict. unfold parsed_dict, renaming. cbn [map fst snd].
    split.
    - intros [= H1 H2 H3 H4 H5]. repeat split; congruence.
    - intros [H1 [H2 [H3 [H4 H5]]]]. rewrite H1, H2, H3, H4, H5. reflexivity. }
  split; [reflexivity |].
  intros items items' out P H. exact (map_result_Permutation _ _ _ P out H).
Qed.

Lemma C7_transformer_reapplied_witness :
  exists out',
    map_result V7.get_item_data [product 2; product 1] = Return out'
    /\ Permutation [VDict (parsed_dict [("id", VInt 1); ("title", VStr "item")]%string);
                    VDict (parsed_dict [("id", VInt 2); ("title", VStr "item")]%string)]
                   out'.
Proof.
  destruct (C7_transformer_reapplied []) as [_ [_ [_ Horder]]].
  apply (Horder [product 1; product 2] [product 2; product 1]).
  - apply perm_swap.
  - reflexivity.
Defined.

(** C8, as stated, fails: an element of the item list that is no object,
    such as a JSON [null], has no [get]; the transformer raises an
    [AttributeError] on it, and the loop body of variant 7, which hands
    it every element unguarded, raises with it. *)
Lemma C8_transformer_raises_on_null_item :
  V7.get_item_data VNone = Raise AttributeError
  /\ V7.stream_page V7.configuration
       (VDict [("products", VList [VNone])]%string) start
     = (Raise AttributeError, start).
Proof. split; reflexivity. Qed.

(** C8, amended.  The transformer never fails on an item that is an
    object (a dict), whatever keys it has: every output field holds the
    value of its source key, and [None] when that key is absent.  The
    parsing step maps it over the items one by one, and variant 7 writes
    the rows of the parsed items for the first page as for every later
    page.  On an element that is no object the transformer raises an
    [AttributeError], and so does the parsing of the page that holds
    it. *)
Theorem C8_transformer_on_items (cfg : config) (raw_item : list (string * value))
    (raw_items : list (list (string * value))) (others : list (string * value))
    (w : world) :
  V7.get_item_data (VDict raw_item) = Return (VDict (parsed_dict raw_item))
  /\ (forall field key,
         In (field, key) renaming ->
         assoc (parsed_dict raw_item) field = Some (dict_get raw_item key VNone)
         /\ (assoc raw_item key = None ->
             assoc (parsed_dict raw_item) field = Some VNone))
  /\ V7.parse_items (VList (map VDict raw_items))
     = Return (VList (map (fun kv => VDict (parsed_dict kv)) raw_items))
  /\ V7.write_first_page cfg (VList (map VDict (raw_item :: raw_items))) w
     = (Return true,
        World (requests w)
              (file w ++ Header (fields_to_extract cfg)
                 :: flat_map (fun kv => row_of (fields_to_extract cfg)
                                               (VDict (parsed_dict kv)))
                             (raw_item :: raw_items)))
  /\ V7.stream_page cfg
       (VDict ((items_key cfg, VList (map VDict (raw_item :: raw_items)))
                 :: others)) w
     = (Return tt,
        World (requests w)
              (file w ++ flat_map (fun kv => row_of (fields_to_extract cfg)
                                                    (VDict (parsed_dict kv)))
                                  (raw_item :: raw_items)))
  /\ (forall (element : value) (after : list value),
         is_dict element = false ->
         V7.get_item_data element = Raise AttributeError
         /\ V7.parse_items (VList (map VDict raw_items ++ element :: after))
            = Raise AttributeError).
Proof.
  assert (Hbad : forall (element : value) (after : list value),
             is_dict element = false ->
             V7.get_item_data element = Raise AttributeError
             /\ V7.parse_items (VList (map VDict raw_items ++ element :: after))
                = Raise AttributeError).
  { intros element after Hd.
    assert (He : V7.get_item_data element = Raise AttributeError)
      by (destruct element; (discriminate Hd || reflexivity)).
    split; [exact He |]. unfold V7.parse_items. cbn [iterate and_then].
    induction raw_items as [| kv kvs IH]; cbn [map app map_result].
    - rewrite He. reflexivity.
    - rewrite get_item_data_dict. cbn [and_then].
      destruct (map_result V7.get_item_data (map VDict kvs ++ element :: after))
        as [parsed | e]; [discriminate IH |].
      cbn [and_then] in IH |- *. exact IH. }
  assert (Hparse : forall kvs,
             V7.parse_items (VList (map VDict kvs))
             = Return (VList (map (fun kv => VDict (parsed_dict kv)) kvs))).
  { intros kvs. unfold V7.parse_items. cbn [iterate and_then].
    induction kvs as [| kv kvs IH]; [reflexivity |].
    cbn [map map_result]. rewrite get_item_data_dict. cbn [and_then].
    destruct (map_result V7.get_item_data (map VDict kvs)) as [parsed | e];
      [| discriminate IH].
    cbn [and_then] in IH |- *. injection IH as ->. reflexivity. }
  assert (Hdicts : forall kvs,
             forallb is_dict (map (fun kv => VDict (parsed_dict kv)) kvs) = true).
  { induction kvs as [| kv kvs IH]; [reflexivity | exact IH]. }
  assert (Hrows : forall kvs,
             flat_map (row_of (fields_to_extract cfg))
                      (map (fun kv => VDict (parsed_dict kv)) kvs)
             = flat_map (fun kv => row_of (fields_to_extract cfg)
                                          (VDict (parsed_dict kv))) kvs).
  { induction kvs as [| kv kvs IH]; [reflexivity |].
    cbn [map flat_map]. rewrite IH. reflexivity. }
  split; [reflexivity |].
  split.
  { intros field key Hin. unfold renaming in Hin. cbn [In] in Hin.
    assert (Hget : assoc (parsed_dict raw_item) field
                   = Some (dict_get raw_item key VNone)).
    { destruct Hin as [[= <- <-] | [[= <- <-] | [[= <- <-] | [[= <- <-]
        | [[= <- <-] | [[= <- <-] | []]]]]]]; reflexivity. }
    split; [exact Hget |].
    intros Habsent. rewrite Hget. unfold dict_get. rewrite Habsent. reflexivity. }
  split; [apply Hparse |].
  split; [| split; [| exact Hbad]].
  - unfold V7.write_first_page. cbn [map truthy].
    change (VDict raw_item :: map VDict raw_items)
      with (map VDict (raw_item :: raw_items)).
    unfold bind at 1, lift. rewrite Hparse.
    unfold bind at 1, writeheader. rewrite write_run.
    unfold bind at 1. rewrite writerows_dicts by apply Hdicts.
    cbn [ret requests file]. rewrite Hrows, <- app_assoc. reflexivity.
  - unfold V7.stream_page. cbn [truthy]. unfold bind at 1, lift.
    cbn [get]. unfold dict_get. cbn [assoc]. rewrite String.eqb_refl.
    cbn [map truthy].
    change (VDict raw_item :: map VDict raw_items)
      with (map VDict (raw_item :: raw_items)).
    unfold bind at 1. rewrite Hparse.
    rewrite writerows_dicts by apply Hdicts. rewrite Hrows. reflexivity.
Qed.

(** Outside the items of the data model: an element of the item list that
    is not a dict has no [get], and the transformer raises. *)
Lemma get_item_data_not_a_dict (raw_item : value) :
  is_dict raw_item = false -> V7.get_item_data raw_item = Raise AttributeError.
Proof. destruct raw_item; (discriminate || reflexivity). Qed.

(* ===================================================================== *)
(** * C9: following the links                                             *)
(* ===================================================================== *)

Lemma fetch_all_pages_loop_chain (s : session) (url : value) (urls : list value)
    (pages : list (list value)) :
  chain s url urls pages ->
  forall (fuel : nat) (all_items : list value) (w : world),
    (List.length urls <= fuel)%nat ->
    V4.fetch_all_pages_loop fuel s url all_items w
    = (Return (Some (all_items ++ List.concat pages)),
       World (requests w ++ urls) (file w)).
Proof.
  induction 1 as [url Hu | url page Hu Hf Hp
                  | url kv items urls pages Hu Hf Hkv Hres Hchain IH];
    intros fuel all_items w Hfuel.
  - destruct fuel; cbn [V4.fetch_all_pages_loop]; rewrite Hu;
      cbn [List.concat]; rewrite !app_nil_r, world_eta; reflexivity.
  - destruct fuel as [| fuel]; [cbn in Hfuel; lia |].
    cbn [V4.fetch_all_pages_loop]. rewrite Hu.
    unfold bind at 1. rewrite fetch_json_run, Hf, Hp. cbn [negb ret List.concat].
    rewrite app_nil_r. reflexivity.
  - destruct fuel as [| fuel]; [cbn in Hfuel; lia |].
    cbn [V4.fetch_all_pages_loop]. rewrite Hu.
    unfold bind at 1. rewrite fetch_json_run, Hf.
    destruct kv as [| binding kv']; [congruence |]. cbn [truthy negb].
    unfold bind at 1, lift. cbn [get]. rewrite Hres.
    unfold bind at 1. cbn [iterate]. unfold bind at 1.
    rewrite IH by (cbn in Hfuel; lia).
    cbn [requests file List.concat]. rewrite <- !app_assoc. reflexivity.
Qed.

(** C9, as stated, fails: the second page fails with a body that is not
    JSON, the [JSONDecodeError] leaves [fetch_json] and [fetch_all_pages]
    with it, and the item of the first page is not returned. *)
Lemma C9_raising_fetch_loses_the_items :
  V4.fetch_all_pages 2 broken_second_page_session
    (VStr "https://swapi.dev/api/people/") start
  = (Raise JSONDecodeError,
     World [VStr "https://swapi.dev/api/people/";
            VStr "https://swapi.dev/api/people/?page=2"] [])
  /\ fetched broken_second_page_session (VStr "https://swapi.dev/api/people/")
     = Return (VDict [("results", VList [VStr "Luke"]);
                      ("next", VStr "https://swapi.dev/api/people/?page=2")]%string).
Proof. split; reflexivity. Qed.

(** C9, amended.  For every chain of link-style pages served from the
    initial URL, [fetch_all_pages] requests the URLs of the chain one
    after the other and returns the concatenation of the pages' item
    lists in chain order; the chain stops at the first page without a
    [next] reference or at the first request for which [fetch_json]
    returns [None] (or a falsy body), and the items of the pages before
    it are kept.  Every number of iterations that covers the chain gives
    this result.  A request that fails by raising past [fetch_json] is no
    such stop: wherever the loop stands, it raises with that exception,
    whatever items it has gathered. *)
Theorem C9_link_following (s : session) (initial_url : value)
    (urls : list value) (pages : list (list value)) (fuel : nat) (w : world) :
  chain s initial_url urls pages ->
  (List.length urls <= fuel)%nat ->
  V4.fetch_all_pages fuel s initial_url w
  = (Return (Some (List.concat pages)), World (requests w ++ urls) (file w))
  /\ (forall (url : value) (e : exn) (all_items : list value) (fuel' : nat)
             (w' : world),
         truthy url = true -> fetched s url = Raise e ->
         V4.fetch_all_pages_loop (S fuel') s url all_items w'
         = (Raise e, World (requests w' ++ [url]) (file w'))).
Proof.
  intros Hchain Hfuel. split.
  - unfold V4.fetch_all_pages.
    rewrite (fetch_all_pages_loop_chain s initial_url urls pages Hchain fuel []
               w Hfuel).
    reflexivity.
  - intros url e all_items fuel' w' Hu He.
    cbn [V4.fetch_all_pages_loop]. rewrite Hu. unfold bind at 1.
    rewrite fetch_json_run, He. reflexivity.
Qed.

Lemma C9_link_following_witness :
  V4.fetch_all_pages 2 people_session (VStr "https://swapi.dev/api/people/") start
  = (Return (Some [VStr "Luke"; VStr "Leia"; VStr "Han"]),
     World [VStr "https://swapi.dev/api/people/";
            VStr "https://swapi.dev/api/people/?page=2"] []).
Proof.
  apply (C9_link_following people_session
           (VStr "https://swapi.dev/api/people/")
           [VStr "https://swapi.dev/api/people/";
            VStr "https://swapi.dev/api/people/?page=2"]
           [[VStr "Luke"; VStr "Leia"]; [VStr "Han"]] 2 start).
  - eapply chain_page; [reflexivity | reflexivity | discriminate | reflexivity |].
    eapply chain_page; [reflexivity | reflexivity | discriminate | reflexivity |].
    apply chain_no_next. reflexivity.
  - cbn. lia.
Defined.

(** A chain that ends at a failed request keeps the items fetched so far. *)
Lemma link_following_failed_page :
  V4.fetch_all_pages 2 (serve [("https://swapi.dev/api/people/",
                                ok_response
                                  (VDict [("results", VList [VStr "Luke"]);
                                          ("next", VStr "https://swapi.dev/api/people/?page=2")]))]%string)
    (VStr "https://swapi.dev/api/people/") start
  = (Return (Some [VStr "Luke"]),
     World [VStr "https://swapi.dev/api/people/";
            VStr "https://swapi.dev/api/people/?page=2"] []).
Proof. reflexivity. Qed.

(* ===================================================================== *)
(** * C10: a falsy body counts as a failed fetch                          *)
(* ===================================================================== *)

Lemma combine_pages_falsy (all_items page : value) (rest : list value) :
  truthy page = false ->
  V5.combine_pages all_items (page :: rest) = V5.combine_pages all_items rest.
Proof. intros H. cbn [V5.combine_pages]. rewrite H. reflexivity. Qed.

(** C10. Let the decoded body [body] of a successful request be falsy
    (an empty object, an empty array, [null], and also [0], [false] or an
    empty string).  Each strategy does with it what it does with the
    [None] of a failed fetch: link-following stops the chain and keeps
    the items so far; the streaming loop skips the page without writing a
    row, and aborts the run when the page is the initial one; the batch
    strategy skips the page, and returns the empty list when the page is
    the initial one. *)
Theorem C10_falsy_body_is_failure (body : value) :
  truthy body = false ->
  (forall s s' url fuel all_items w,
      truthy url = true ->
      fetched s url = Return body -> fetched s' url = Return VNone ->
      V4.fetch_all_pages_loop (S fuel) s url all_items w
      = V4.fetch_all_pages_loop (S fuel) s' url all_items w
      /\ V4.fetch_all_pages_loop (S fuel) s url all_items w
         = (Return (Some all_items), World (requests w ++ [url]) (file w)))
  /\ (forall cfg rest w,
         V6.stream_page cfg body w = (Return tt, w)
         /\ V6.stream_page cfg body w = V6.stream_page cfg VNone w
         /\ V6.stream_pages cfg (Return body :: rest) w
            = V6.stream_pages cfg (Return VNone :: rest) w
         /\ V6.stream_pages cfg (Return body :: rest) w
            = V6.stream_pages cfg rest w)
  /\ (forall cfg sched s s' w,
         page_at cfg s 0 = Return body -> page_at cfg s' 0 = Return VNone ->
         V6.main cfg sched s w = V6.main cfg sched s' w
         /\ V6.main cfg sched s w
            = (Return FailedInitialPage,
               World (requests w ++ [VStr (page_url cfg 0)]) (file w)))
  /\ (forall all_items rest,
         V5.combine_pages all_items (body :: rest)
         = V5.combine_pages all_items (VNone :: rest)
         /\ V5.combine_pages all_items (body :: rest)
            = V5.combine_pages all_items rest)
  /\ (forall sched s s' base_url p w,
         batch_page_at base_url p s 0 = Return body ->
         batch_page_at base_url p s' 0 = Return VNone ->
         V5.fetch_all_with_total_offset sched s base_url p w
         = V5.fetch_all_with_total_offset sched s' base_url p w
         /\ V5.fetch_all_with_total_offset sched s base_url p w
            = (Return (VList []),
               World (requests w ++ [VStr (V5.page_url base_url p 0)]) (file w))).
Proof.
  intros Hbody.
  split.
  { intros s s' url fuel all_items w Hu Hs Hs'.
    cbn [V4.fetch_all_pages_loop]. rewrite Hu. unfold bind.
    rewrite !fetch_json_run, Hs, Hs', Hbody. cbn [truthy negb ret].
    split; reflexivity. }
  split.
  { intros cfg rest w.
    assert (H1 : V6.stream_page cfg body w = (Return tt, w))
      by (unfold V6.stream_page; rewrite Hbody; reflexivity).
    assert (H2 : forall page, V6.stream_page cfg page w = (Return tt, w) ->
                 V6.stream_pages cfg (Return page :: rest) w
                 = V6.stream_pages cfg rest w).
    { intros page H. unfold V6.stream_pages. cbn [for_each].
      unfold bind at 1. unfold bind at 1, lift. rewrite H. reflexivity. }
    repeat split.
    - exact H1.
    - rewrite H1. reflexivity.
    - rewrite (H2 body H1), (H2 VNone eq_refl). reflexivity.
    - exact (H2 body H1). }
  split.
  { intros cfg sched s s' w Hs Hs'. rewrite !V6_main_run. cbv zeta.
    rewrite Hs, Hs', Hbody. split; reflexivity. }
  split.
  { intros all_items rest.
    rewrite (combine_pages_falsy all_items body rest Hbody).
    rewrite (combine_pages_falsy all_items VNone rest eq_refl).
    split; reflexivity. }
  intros sched s s' base_url p w Hs Hs'.
  assert (H : forall s0 page,
             batch_page_at base_url p s0 0 = Return page -> truthy page = false ->
             V5.fetch_all_with_total_offset sched s0 base_url p w
             = (Return (VList []),
                World (requests w ++ [VStr (V5.page_url base_url p 0)]) (file w))).
  { intros s0 page Hs0 Hpage. unfold batch_page_at in Hs0.
    unfold V5.fetch_all_with_total_offset. cbv zeta. unfold bind at 1.
    rewrite fetch_json_run, Hs0, Hpage. reflexivity. }
  rewrite (H s body Hs Hbody), (H s' VNone Hs' eq_refl). split; reflexivity.
Qed.

Lemma C10_falsy_body_is_failure_witness :
  V6.stream_page V6.configuration (VDict []) start = (Return tt, start)
  /\ V5.combine_pages (VList [VInt 1]) [VList []; VList [VInt 2]]
     = V5.combine_pages (VList [VInt 1]) [VList [VInt 2]].
Proof.
  split.
  - destruct (C10_falsy_body_is_failure (VDict []) eq_refl) as [_ [Hstream _]].
    apply (Hstream V6.configuration [] start).
  - destruct (C10_falsy_body_is_failure (VList []) eq_refl)
      as [_ [_ [_ [Hcombine _]]]].
    apply (Hcombine (VList [VInt 1]) [VList [VInt 2]]).
Defined.

(* ===================================================================== *)
(** * Variant 5: the failure policy of the batch                          *)
(* ===================================================================== *)

Lemma map_io_map {A B C : Type} (f : A -> B) (g : B -> IO C) (l : list A) (w : world) :
  map_io g (map f l) w = map_io (fun x => g (f x)) l w.
Proof.
  revert w; induction l as [| x l IH]; intros w; cbn [map map_io]; [reflexivity |].
  unfold bind at 1 3. destruct (g (f x) w) as [[c | e] w1]; [| reflexivity].
  unfold bind at 1 2. rewrite IH. reflexivity.
Qed.

Lemma gather_fetch_run (sched : scheduler) (s : session) (urls : list value)
    (w : world) :
  gather sched (map (fetch_json s) urls) w =
  (match collect (as_completed sched _ (map (fetched s) urls)) with
   | Raise e => Raise e
   | Return _ => collect (map (fetched s) urls)
   end,
   World (requests w ++ urls) (file w)).
Proof.
  unfold gather, bind. rewrite map_io_map, launch_run.
  destruct (collect (as_completed sched _ _)); reflexivity.
Qed.

Lemma collect_ok (futures : list (result value)) :
  forallb batch_result_ok futures = true ->
  collect futures = Return (map page_of futures).
Proof.
  induction futures as [| future rest IH]; intros H; [reflexivity |].
  cbn [forallb] in H. apply andb_prop in H as [Hf Hr].
  destruct future as [page | e]; [| discriminate Hf].
  cbn [collect map page_of]. rewrite (IH Hr). reflexivity.
Qed.

Lemma combine_pages_ok (items : list value) (pages : list value) :
  forallb (fun page => batch_result_ok (Return page)) pages = true ->
  V5.combine_pages (VList items) pages
  = Return (VList (items ++ flat_map list_items pages)).
Proof.
  revert items; induction pages as [| page rest IH]; intros items H.
  - cbn. rewrite app_nil_r. reflexivity.
  - cbn [forallb] in H. apply andb_prop in H as [Hp Hr].
    cbn [V5.combine_pages flat_map].
    destruct page as [| | | | | more |]; try discriminate Hp.
    + cbn [truthy list_items app]. apply IH, Hr.
    + destruct more as [| item more'].
      * cbn [truthy list_items app]. apply IH, Hr.
      * cbn [truthy extend iterate list_items]. rewrite (IH _ Hr).
        rewrite <- app_assoc. reflexivity.
Qed.

(** The batch of variant 5 under the same policy as C4: when every page
    is a failed fetch or a list of items, the function returns the items
    of the first page followed by those of every successful page, in
    submission order, and a failed page adds none. *)
Lemma V5_failed_page_is_skipped (sched : scheduler) (s : session)
    (base_url : string) (p : Z) (first_items : list value) (w : world) :
  p <> 0 ->
  batch_page_at base_url p s 0 = Return (VList first_items) ->
  first_items <> [] ->
  (forall offset, batch_result_ok (batch_page_at base_url p s offset) = true) ->
  exists offsets,
    range p V5.total_items p = Return offsets
    /\ V5.fetch_all_with_total_offset sched s base_url p w
       = (Return (VList (first_items
                           ++ flat_map (fun o => list_items
                                                   (page_of (batch_page_at
                                                               base_url p s o)))
                                       offsets)),
          World (requests w ++ VStr (V5.page_url base_url p 0)
                   :: map (fun o => VStr (V5.page_url base_url p o)) offsets)
                (file w)).
Proof.
  intros Hp Hfirst Hne Hok.
  assert (Hrange : exists offsets, range p V5.total_items p = Return offsets).
  { unfold range. destruct (Z.eqb_spec p 0); [contradiction | eauto]. }
  destruct Hrange as [offsets Hrange]. exists offsets. split; [exact Hrange |].
  unfold V5.fetch_all_with_total_offset. cbv zeta. unfold bind at 1.
  unfold batch_page_at in Hfirst. rewrite fetch_json_run, Hfirst.
  destruct first_items as [| item items]; [congruence |]. cbn [truthy negb].
  change (V5.total_items =? 0) with false. cbv iota.
  unfold bind at 1, lift, V5.urls_to_fetch. rewrite Hrange.
  unfold bind at 1. rewrite gather_fetch_run. rewrite map_map.
  change (fun x => fetched s (VStr (V5.page_url base_url p x)))
    with (batch_page_at base_url p s).
  assert (Hall : forallb batch_result_ok (map (batch_page_at base_url p s) offsets)
                 = true).
  { apply forallb_forall. intros future Hin.
    apply in_map_iff in Hin as [o [<- _]]. apply Hok. }
  rewrite (collect_ok _ (forallb_Permutation _ _ _ (as_completed_perm sched _ _) Hall)).
  rewrite (collect_ok _ Hall). cbn [requests file].
  rewrite combine_pages_ok.
  - rewrite map_map, flat_map_concat_map, map_map, <- flat_map_concat_map.
    rewrite <- app_assoc. reflexivity.
  - apply forallb_forall. intros page Hin. rewrite map_map in Hin.
    apply in_map_iff in Hin as [o [<- _]].
    specialize (Hok o). destruct (batch_page_at base_url p s o); [exact Hok | discriminate Hok].
Qed.

(** Outside the page results of the data model: a truthy body that is not
    a dict has no [get], and the loop body of variant 6 raises. *)
Lemma V6_stream_page_not_a_dict (cfg : config) (page : value) (w : world) :
  truthy page = true -> is_dict page = false ->
  V6.stream_page cfg page w = (Raise AttributeError, w).
Proof.
  intros Ht Hd. unfold V6.stream_page. rewrite Ht.
  destruct page; (discriminate Hd || reflexivity).
Qed.

(* ===================================================================== *)
(** * The streaming variants: what every run keeps                        *)
(* ===================================================================== *)

Lemma only_rows_app (l l' : list line) :
  only_rows l = true -> only_rows l' = true -> only_rows (l ++ l') = true.
Proof. unfold only_rows. intros H H'. rewrite forallb_app, H, H'. reflexivity. Qed.

Lemma header_only_first_app (fields : list string) (l rows : list line) :
  header_only_first fields l = true -> only_rows rows = true ->
  header_only_first fields (l ++ rows) = true.
Proof.
  destruct l as [| [names | cells] rest]; cbn [header_only_first app].
  - intros _ H. destruct rows as [| [names | cells] rows']; try reflexivity.
    + discriminate H.
    + exact H.
  - intros H H'. apply andb_prop in H as [Hn Hr]. rewrite Hn.
    cbn [andb]. apply only_rows_app; assumption.
  - intros H H'. apply only_rows_app; assumption.
Qed.

(** A loop whose body only appends rows only appends rows, also when it
    stops at an exception. *)
Lemma for_each_only_rows {A : Type} (body : A -> IO unit) (l : list A) :
  (forall x w, exists rows,
      file (snd (body x w)) = file w ++ rows /\ only_rows rows = true) ->
  forall w, exists rows,
      file (snd (for_each l body w)) = file w ++ rows /\ only_rows rows = true.
Proof.
  intros Hbody. induction l as [| x l IH]; intros w; cbn [for_each].
  - exists []. rewrite app_nil_r. split; reflexivity.
  - unfold bind. destruct (Hbody x w) as [rows1 [E1 H1]].
    destruct (body x w) as [[[] | e] w1]; cbn [snd] in *.
    + destruct (IH w1) as [rows2 [E2 H2]]. exists (rows1 ++ rows2).
      rewrite E2, E1, app_assoc. split; [reflexivity |].
      apply only_rows_app; assumption.
    + exists rows1. split; assumption.
Qed.

Lemma writerow_only_rows (fields : list string) (rowdict : value) (w : world) :
  exists rows,
    file (snd (writerow fields rowdict w)) = file w ++ rows
    /\ only_rows rows = true.
Proof.
  unfold writerow, bind, lift.
  destruct (map_result _ fields) as [cells | e]; cbn [snd].
  - exists [Row cells]. split; reflexivity.
  - exists []. rewrite app_nil_r. split; reflexivity.
Qed.

Lemma writerows_only_rows (fields : list string) (rowdicts : value) (w : world) :
  exists rows,
    file (snd (writerows fields rowdicts w)) = file w ++ rows
    /\ only_rows rows = true.
Proof.
  unfold writerows, bind, lift.
  destruct (iterate rowdicts) as [items | e].
  - apply for_each_only_rows. intros x w'. apply writerow_only_rows.
  - exists []. cbn [snd]. rewrite app_nil_r. split; reflexivity.
Qed.

Lemma V6_stream_pages_only_rows (cfg : config) (futures : list (result value))
    (w : world) :
  exists rows,
    file (snd (V6.stream_pages cfg futures w)) = file w ++ rows
    /\ only_rows rows = true.
Proof.
  unfold V6.stream_pages. apply for_each_only_rows. clear w.
  intros future w. unfold bind, lift.
  destruct future as [page | e];
    [| exists []; cbn [snd]; rewrite app_nil_r; split; reflexivity].
  unfold V6.stream_page.
  destruct (truthy page);
    [| exists []; cbn [snd ret]; rewrite app_nil_r; split; reflexivity].
  unfold bind, lift.
  destruct (get page _ _) as [items | e];
    [| exists []; cbn [snd]; rewrite app_nil_r; split; reflexivity].
  destruct (truthy items);
    [| exists []; cbn [snd ret]; rewrite app_nil_r; split; reflexivity].
  apply writerows_only_rows.
Qed.

Lemma V7_stream_pages_only_rows (cfg : config) (futures : list (result value))
    (w : world) :
  exists rows,
    file (snd (V7.stream_pages cfg futures w)) = file w ++ rows
    /\ only_rows rows = true.
Proof.
  unfold V7.stream_pages. apply for_each_only_rows. clear w.
  intros future w. unfold bind, lift.
  destruct future as [page | e];
    [| exists []; cbn [snd]; rewrite app_nil_r; split; reflexivity].
  unfold V7.stream_page.
  destruct (truthy page);
    [| exists []; cbn [snd ret]; rewrite app_nil_r; split; reflexivity].
  unfold bind, lift.
  destruct (get page _ _) as [items | e];
    [| exists []; cbn [snd]; rewrite app_nil_r; split; reflexivity].
  destruct (truthy items);
    [| exists []; cbn [snd ret]; rewrite app_nil_r; split; reflexivity].
  destruct (V7.parse_items items) as [parsed | e];
    [| exists []; cbn [snd]; rewrite app_nil_r; split; reflexivity].
  apply writerows_only_rows.
Qed.

Lemma V6_write_first_page_lines (cfg : config) (items : value) (w : world) :
  exists lines,
    file (snd (V6.write_first_page cfg items w)) = file w ++ lines
    /\ header_only_first (fields_to_extract cfg) lines = true.
Proof.
  unfold V6.write_first_page.
  destruct (truthy items);
    [| exists []; cbn [snd ret]; rewrite app_nil_r; split; reflexivity].
  unfold bind at 1, writeheader. rewrite write_run. unfold bind at 1.
  destruct (writerows_only_rows (fields_to_extract cfg) items
              (World (requests w) (file w ++ [Header (fields_to_extract cfg)])))
    as [rows [E H]].
  exists (Header (fields_to_extract cfg) :: rows). split.
  - destruct (writerows _ _ _) as [[[] | e] w1]; cbn [snd file ret] in *;
      rewrite E, <- app_assoc; reflexivity.
  - cbn [header_only_first]. rewrite fields_eq_refl, H. reflexivity.
Qed.

Lemma V7_write_first_page_lines (cfg : config) (items : value) (w : world) :
  exists lines,
    file (snd (V7.write_first_page cfg items w)) = file w ++ lines
    /\ header_only_first (fields_to_extract cfg) lines = true.
Proof.
  unfold V7.write_first_page.
  destruct (truthy items);
    [| exists []; cbn [snd ret]; rewrite app_nil_r; split; reflexivity].
  unfold bind at 1, lift.
  destruct (V7.parse_items items) as [parsed | e];
    [| exists []; cbn [snd]; rewrite app_nil_r; split; reflexivity].
  unfold bind at 1, writeheader. rewrite write_run. unfold bind at 1.
  destruct (writerows_only_rows (fields_to_extract cfg) parsed
              (World (requests w) (file w ++ [Header (fields_to_extract cfg)])))
    as [rows [E H]].
  exists (Header (fields_to_extract cfg) :: rows). split.
  - destruct (writerows _ _ _) as [[[] | e] w1]; cbn [snd file ret] in *;
      rewrite E, <- app_assoc; reflexivity.
  - cbn [header_only_first]. rewrite fields_eq_refl, H. reflexivity.
Qed.

(** X2. In every run of variants 6 and 7, whatever the server answers and
    in whatever order the pages complete, also when the run ends with an
    exception: the file holds at most one header, the header is its first
    line and names the configured fields, and every other line is a
    row. *)
Theorem streaming_header_only_first (cfg : config) (sched : scheduler) (s : session) :
  header_only_first (fields_to_extract cfg)
    (file (snd (V6.main cfg sched s start))) = true
  /\ header_only_first (fields_to_extract cfg)
       (file (snd (V7.main cfg sched s start))) = true
  /\ (count_headers (file (snd (V6.main cfg sched s start))) <= 1)%nat
  /\ (count_headers (file (snd (V7.main cfg sched s start))) <= 1)%nat.
Proof.
  assert (Hcount : forall f, header_only_first (fields_to_extract cfg) f = true ->
                             (count_headers f <= 1)%nat).
  { assert (Hrows : forall rows, only_rows rows = true -> filter is_header rows = []).
    { induction rows as [| l rows IH]; [reflexivity |]. cbn [only_rows forallb filter].
      intros H. apply andb_prop in H as [Hl Hr].
      destruct (is_header l); [discriminate Hl | apply IH, Hr]. }
    intros [| [names | cells] rest] H; unfold count_headers; cbn [filter is_header].
    - cbn. lia.
    - cbn [header_only_first] in H. apply andb_prop in H as [_ H].
      rewrite (Hrows _ H). cbn. lia.
    - cbn [header_only_first] in H. rewrite (Hrows _ H). cbn. lia. }
  assert (H6 : header_only_first (fields_to_extract cfg)
                 (file (snd (V6.main cfg sched s start))) = true).
  { rewrite V6_main_run, snd_caught. cbv zeta. cbn [requests file start app].
    destruct (page_at cfg s 0) as [initial | e]; [| reflexivity].
    destruct (truthy initial); [| reflexivity].
    destruct initial; try reflexivity.
    destruct (V6_write_first_page_lines cfg
                (dict_get kv (items_key cfg) (VList []))
                (World [VStr (page_url cfg 0)] [])) as [lines [E1 H1]].
    cbn [file app] in E1.
    destruct (V6.write_first_page cfg _ _) as [[hw | e] w1]; cbn [snd] in *;
      [| rewrite E1; exact H1].
    destruct (urls_to_fetch cfg _) as [[| url urls] | e]; cbn [snd];
      try (rewrite E1; exact H1).
    destruct (V6_stream_pages_only_rows cfg
                (as_completed sched _
                   (map (fetched s) (started sched _ (url :: urls))))
                (World (requests w1 ++ started sched _ (url :: urls)) (file w1)))
      as [rows [E2 H2]].
    cbn [file] in E2.
    destruct (V6.stream_pages cfg _ _) as [[[] | e] w2]; cbn [snd] in *;
      rewrite E2, E1; apply header_only_first_app; assumption. }
  assert (H7 : header_only_first (fields_to_extract cfg)
                 (file (snd (V7.main cfg sched s start))) = true).
  { rewrite V7_main_run, snd_caught. cbv zeta. cbn [requests file start app].
    destruct (page_at cfg s 0) as [initial | e]; [| reflexivity].
    destruct (truthy initial); [| reflexivity].
    destruct initial; try reflexivity.
    destruct (V7_write_first_page_lines cfg
                (dict_get kv (items_key cfg) (VList []))
                (World [VStr (page_url cfg 0)] [])) as [lines [E1 H1]].
    cbn [file app] in E1.
    destruct (V7.write_first_page cfg _ _) as [[hw | e] w1]; cbn [snd] in *;
      [| rewrite E1; exact H1].
    destruct (urls_to_fetch cfg _) as [[| url urls] | e]; cbn [snd];
      try (rewrite E1; exact H1).
    destruct (V7_stream_pages_only_rows cfg
                (as_completed sched _
                   (map (fetched s) (started sched _ (url :: urls))))
                (World (requests w1 ++ started sched _ (url :: urls)) (file w1)))
      as [rows [E2 H2]].
    cbn [file] in E2.
    destruct (V7.stream_pages cfg _ _) as [[[] | e] w2]; cbn [snd] in *;
      rewrite E2, E1; apply header_only_first_app; assumption. }
  repeat split; auto.
Qed.

(** X3. Once the first page of variant 6 is a well-formed non-empty
    page, the run issues the request of the initial page and then one
    request for every remaining offset, in the order in which
    [as_completed] starts its tasks, whatever the remaining pages answer,
    also when one of them makes the run raise.  For a page size [p > 0]
    and an integer total [t >= 0] that is [max 1 (ceil (t/p))]
    requests. *)
Theorem V6_requests_issued (cfg : config) (sched : scheduler) (s : session)
    (kv : list (string * value)) :
  page_at cfg s 0 = Return (VDict kv) -> kv <> [] ->
  page_ok cfg (VDict kv) = true ->
  exists urls,
    requests (snd (V6.main cfg sched s start)) = VStr (page_url cfg 0) :: urls
    /\ Permutation
         (map (fun o => VStr (page_url cfg o)) (remaining_offsets cfg (VDict kv)))
         urls
    /\ urls = started sched _
                (map (fun o => VStr (page_url cfg o))
                     (remaining_offsets cfg (VDict kv)))
    /\ (forall t, 0 < max_results_per_page cfg -> 0 <= t ->
                  dict_get kv (total_key cfg) (VInt 0) = VInt t ->
                  Z.of_nat (List.length
                              (requests (snd (V6.main cfg sched s start))))
                  = Z.max 1 (ceil_div t (max_results_per_page cfg))).
Proof.
  intros E Hne Hok.
  assert (Hreq : requests (snd (V6.main cfg sched s start))
                 = VStr (page_url cfg 0)
                     :: started sched _
                          (map (fun o => VStr (page_url cfg o))
                               (remaining_offsets cfg (VDict kv)))).
  { rewrite V6_main_run, snd_caught. cbv zeta. rewrite E.
    destruct kv as [| binding kv']; [congruence |]. cbn [truthy].
    rewrite (V6_write_first_page_ok cfg _ _ _ eq_refl Hok). cbn [requests file start app].
    unfold urls_to_fetch, remaining_offsets.
    destruct (range_to _ _ _) as [[| o offs] | e]; cbn [map snd requests];
      try (rewrite (Permutation_nil (started_perm sched _ [])); reflexivity).
    pose proof (V6_stream_pages_requests cfg
                  (as_completed sched _
                     (map (fetched s)
                        (started sched _
                           (VStr (page_url cfg o)
                              :: map (fun o0 => VStr (page_url cfg o0)) offs))))
                  (World ([VStr (page_url cfg 0)]
                            ++ started sched _
                                 (VStr (page_url cfg o)
                                    :: map (fun o0 => VStr (page_url cfg o0)) offs))
                         ([] ++ first_page_lines cfg (VDict (binding :: kv')))))
      as H.
    cbn [requests app] in H.
    destruct (V6.stream_pages cfg _ _) as [[[] | e] w2]; cbn [snd] in *; exact H. }
  eexists. split; [exact Hreq |]. split; [apply started_perm |].
  split; [reflexivity |].
  intros t Hp Ht Htotal. rewrite Hreq. cbn [List.length].
  rewrite <- (Permutation_length (started_perm sched _ _)). rewrite length_map.
  unfold remaining_offsets, range_to. rewrite Htotal. cbn [index].
  rewrite (range_positive_step _ t Hp). rewrite length_map, length_seq.
  rewrite (range_length_offsets _ t Hp Ht).
  pose proof (ceil_div_spec t (max_results_per_page cfg) Hp) as Hc.
  destruct (Z.eqb_spec t 0) as [-> | Hnz].
  - assert (ceil_div 0 (max_results_per_page cfg) <= 0) by nia.
    cbn [Z.to_nat]. lia.
  - assert (1 <= ceil_div t (max_results_per_page cfg)) by nia. lia.
Qed.

Lemma V6_requests_issued_witness :
  exists urls,
    requests (snd (V6.main V6.configuration started_in_reverse
                     three_page_session start))
    = VStr "https://dummyjson.com/products?limit=20&skip=0" :: urls
    /\ urls = [VStr "https://dummyjson.com/products?limit=20&skip=40";
               VStr "https://dummyjson.com/products?limit=20&skip=20"].
Proof.
  destruct (V6_requests_issued V6.configuration started_in_reverse
              three_page_session
              [("total", VInt 45); ("products", VList [product 1; product 2])]%string)
    as [urls [Hreq [_ [Hurls _]]]].
  - reflexivity.
  - discriminate.
  - reflexivity.
  - exists urls. split; [exact Hreq | exact Hurls].
Defined.

(** X4. An exception that a task of the streaming loop raises past
    [fetch_json] ends the loop of variant 6 where it is delivered: the
    rows of the pages delivered before it are in the file, the pages
    delivered after it are never written, and the exception leaves the
    loop. *)
Theorem V6_stream_pages_raise (cfg : config)
    (before after : list (result value)) (e : exn) (w : world) :
  forallb (page_result_ok cfg) before = true ->
  V6.stream_pages cfg (before ++ Raise e :: after) w
  = (Raise e,
     World (requests w)
           (file w ++ flat_map (fun future => page_rows cfg (page_of future))
                               before)).
Proof.
  unfold V6.stream_pages. revert w.
  induction before as [| future rest IH]; intros w H; cbn [app for_each flat_map].
  - unfold bind, lift. rewrite app_nil_r, world_eta. reflexivity.
  - cbn [forallb] in H. apply andb_prop in H as [Hf Hr].
    destruct (page_result_ok_cases cfg _ Hf) as [page [-> _]].
    unfold bind at 1. unfold bind at 1, lift.
    rewrite (V6_stream_page_ok cfg page w Hf). rewrite (IH _ Hr).
    cbn [requests file page_of]. rewrite <- app_assoc. reflexivity.
Qed.

Lemma V6_stream_pages_raise_witness :
  V6.stream_pages V6.configuration
    [Return (VDict [("products", VList [product 21])]%string);
     Raise JSONDecodeError;
     Return (VDict [("products", VList [product 41])]%string)] start
  = (Raise JSONDecodeError,
     World [] [Row [VInt 21; VStr "item"; VStr ""; VStr ""; VStr ""; VStr ""]]).
Proof.
  apply (V6_stream_pages_raise V6.configuration
           [Return (VDict [("products", VList [product 21])]%string)]
           [Return (VDict [("products", VList [product 41])]%string)]
           JSONDecodeError start).
  reflexivity.
Defined.

(** X5. When the total of the initial page does not exceed the page size,
    in particular when the response has no total key (the default is 0),
    variant 6 writes the first page, issues no further request and ends
    with the report that all items were on the first page. *)
Theorem V6_all_on_first_page (cfg : config) (sched : scheduler) (s : session)
    (kv : list (string * value)) (t : Z) :
  0 < max_results_per_page cfg ->
  page_at cfg s 0 = Return (VDict kv) -> kv <> [] ->
  page_ok cfg (VDict kv) = true ->
  dict_get kv (total_key cfg) (VInt 0) = VInt t ->
  t <= max_results_per_page cfg ->
  V6.main cfg sched s start
  = (Return AllOnFirstPage,
     World [VStr (page_url cfg 0)] (first_page_lines cfg (VDict kv))).
Proof.
  intros Hp E Hne Hok Htotal Ht. rewrite V6_main_run. cbv zeta. rewrite E.
  destruct kv as [| binding kv']; [congruence |]. cbn [truthy].
  rewrite (V6_write_first_page_ok cfg _ _ _ eq_refl Hok). cbn [requests file start app].
  unfold urls_to_fetch, range_to. rewrite Htotal. cbn [index].
  rewrite (range_positive_step _ t Hp).
  assert (El : range_length (max_results_per_page cfg) t (max_results_per_page cfg) = 0).
  { unfold range_length. destruct (Z.ltb_spec 0 (max_results_per_page cfg)); [| lia].
    destruct (Z.ltb_spec (max_results_per_page cfg) t); [lia | reflexivity]. }
  rewrite El. reflexivity.
Qed.

Lemma V6_all_on_first_page_witness :
  V6.main V6.configuration in_submission_order no_total_session start
  = (Return AllOnFirstPage,
     World [VStr "https://dummyjson.com/products?limit=20&skip=0"]
           [Header ["id"; "title"; "brand"; "category"; "price"; "rating"]%string;
            Row [VInt 1; VStr "item"; VStr ""; VStr ""; VStr ""; VStr ""];
            Row [VInt 2; VStr "item"; VStr ""; VStr ""; VStr ""; VStr ""]]).
Proof.
  apply (V6_all_on_first_page V6.configuration in_submission_order
           no_total_session
           [("products", VList [product 1; product 2])]%string 0).
  - cbn. lia.
  - reflexivity.
  - discriminate.
  - reflexivity.
  - reflexivity.
  - cbn. lia.
Defined.

(** X6. When the total of the initial page is not an integer (a string,
    a float, [null], a list, an object), variant 6 writes the first page
    and then fails with the [TypeError] of [range]; no other page is
    requested. *)
Theorem V6_total_not_an_integer (cfg : config) (sched : scheduler) (s : session)
    (kv : list (string * value)) :
  page_at cfg s 0 = Return (VDict kv) -> kv <> [] ->
  page_ok cfg (VDict kv) = true ->
  total_ok cfg (VDict kv) = false ->
  V6.main cfg sched s start
  = (Raise TypeError,
     World [VStr (page_url cfg 0)] (first_page_lines cfg (VDict kv))).
Proof.
  intros E Hne Hok Htotal. rewrite V6_main_run. cbv zeta. rewrite E.
  destruct kv as [| binding kv']; [congruence |]. cbn [truthy].
  rewrite (V6_write_first_page_ok cfg _ _ _ eq_refl Hok). cbn [requests file start app].
  unfold urls_to_fetch, range_to. unfold total_ok in Htotal.
  destruct (dict_get (binding :: kv') (total_key cfg) (VInt 0));
    try discriminate Htotal; reflexivity.
Qed.

Lemma V6_total_not_an_integer_witness :
  V6.main V6.configuration in_submission_order string_total_session start
  = (Raise TypeError,
     World [VStr "https://dummyjson.com/products?limit=20&skip=0"]
           [Header ["id"; "title"; "brand"; "category"; "price"; "rating"]%string;
            Row [VInt 1; VStr "item"; VStr ""; VStr ""; VStr ""; VStr ""]]).
Proof.
  apply (V6_total_not_an_integer V6.configuration in_submission_order
           string_total_session
           [("total", VStr "45"); ("products", VList [product 1])]%string).
  - reflexivity.
  - discriminate.
  - reflexivity.
  - reflexivity.
Defined.

(* ===================================================================== *)
(** * Variant 4: paths, cycles and exceptions                             *)
(* ===================================================================== *)

(** X7. Following a path of pages and going on from where it leads is
    the loop of [fetch_all_pages] started at the head of the path: the
    URLs of the path are requested in order and the item lists of its
    pages are appended, in order, to the items gathered so far. *)
Theorem V4_follow_path (s : session) (url : value) (urls : list value)
    (pages : list (list value)) (url' : value) :
  reaches s url urls pages url' ->
  forall (fuel : nat) (all_items : list value) (w : world),
    V4.fetch_all_pages_loop (List.length urls + fuel) s url all_items w
    = V4.fetch_all_pages_loop fuel s url' (all_items ++ List.concat pages)
        (World (requests w ++ urls) (file w)).
Proof.
  induction 1 as [url | url kv items urls pages url' Hu Hf Hkv Hres Hreach IH];
    intros fuel all_items w.
  - cbn [List.length Nat.add List.concat]. rewrite !app_nil_r, world_eta.
    reflexivity.
  - cbn [List.length Nat.add V4.fetch_all_pages_loop]. rewrite Hu.
    unfold bind at 1. rewrite fetch_json_run, Hf.
    destruct kv as [| binding kv']; [congruence |]. cbn [truthy negb].
    unfold bind at 1, lift. cbn [get]. rewrite Hres.
    unfold bind at 1. cbn [iterate]. unfold bind at 1.
    rewrite IH. cbn [requests file List.concat]. rewrite <- !app_assoc.
    reflexivity.
Qed.

Lemma V4_follow_path_witness :
  V4.fetch_all_pages_loop 3 people_session
    (VStr "https://swapi.dev/api/people/") [] start
  = V4.fetch_all_pages_loop 2 people_session
      (VStr "https://swapi.dev/api/people/?page=2") [VStr "Luke"; VStr "Leia"]
      (World [VStr "https://swapi.dev/api/people/"] []).
Proof.
  simple refine
    (V4_follow_path people_session (VStr "https://swapi.dev/api/people/")
       [VStr "https://swapi.dev/api/people/"] [[VStr "Luke"; VStr "Leia"]]
       (VStr "https://swapi.dev/api/people/?page=2") _ 2%nat [] start).
  eapply reaches_page; [reflexivity | reflexivity | discriminate | reflexivity |].
  apply reaches_here.
Defined.

Lemma V4_path_needs_fuel (s : session) (url : value) (urls : list value)
    (pages : list (list value)) (url' : value) :
  reaches s url urls pages url' ->
  forall (fuel : nat) (all_items : list value) (w : world),
    (fuel < List.length urls)%nat ->
    fst (V4.fetch_all_pages_loop fuel s url all_items w) = Return None.
Proof.
  induction 1 as [url | url kv items urls pages url' Hu Hf Hkv Hres Hreach IH];
    intros fuel all_items w Hfuel.
  - cbn in Hfuel. lia.
  - destruct fuel as [| fuel]; cbn [V4.fetch_all_pages_loop]; rewrite Hu;
      [reflexivity |].
    unfold bind at 1. rewrite fetch_json_run, Hf.
    destruct kv as [| binding kv']; [congruence |]. cbn [truthy negb].
    unfold bind at 1, lift. cbn [get]. rewrite Hres.
    unfold bind at 1. cbn [iterate]. unfold bind at 1.
    apply IH. cbn in Hfuel. lia.
Qed.

(** X8. [fetch_all_pages] has no guard against links that form a cycle:
    when the [next] links lead from a URL back to itself, the loop never
    ends, whatever number of iterations it is given. *)
Theorem V4_cycle_never_returns (s : session) (url first : value)
    (urls : list value) (pages : list (list value)) :
  reaches s url (first :: urls) pages url ->
  forall (fuel : nat) (all_items : list value) (w : world),
    fst (V4.fetch_all_pages_loop fuel s url all_items w) = Return None.
Proof.
  intros Hcycle fuel.
  induction fuel as [fuel IH] using lt_wf_ind. intros all_items w.
  destruct (Nat.lt_ge_cases fuel (List.length (first :: urls))) as [Hlt | Hge].
  - exact (V4_path_needs_fuel s url _ pages url Hcycle fuel all_items w Hlt).
  - replace fuel with (List.length (first :: urls)
                       + (fuel - List.length (first :: urls)))%nat by lia.
    rewrite (V4_follow_path s url _ pages url Hcycle). apply IH.
    cbn [List.length] in *. lia.
Qed.

Lemma V4_cycle_never_returns_witness :
  fst (V4.fetch_all_pages_loop 1000 cyclic_session
         (VStr "https://swapi.dev/api/people/") [] start)
  = Return None.
Proof.
  apply (V4_cycle_never_returns cyclic_session
           (VStr "https://swapi.dev/api/people/")
           (VStr "https://swapi.dev/api/people/")
           [VStr "https://swapi.dev/api/people/?page=2"]
           [[VStr "Luke"]; [VStr "Han"]]).
  eapply reaches_page; [reflexivity | reflexivity | discriminate | reflexivity |].
  eapply reaches_page; [reflexivity | reflexivity | discriminate | reflexivity |].
  apply reaches_here.
Defined.

(** X9. Unlike a failed fetch, an exception discards what was gathered:
    when the request at the end of a path raises past [fetch_json], or
    answers with a truthy body that is not an object, [fetch_all_pages]
    raises (the latter an [AttributeError]) after having requested the
    path, and returns none of the items of the pages before. *)
Theorem V4_exception_discards_items (s : session) (url : value)
    (urls : list value) (pages : list (list value)) (url' : value)
    (fuel : nat) (w : world) :
  reaches s url urls pages url' ->
  truthy url' = true ->
  (List.length urls < fuel)%nat ->
  (forall e, fetched s url' = Raise e ->
             V4.fetch_all_pages fuel s url w
             = (Raise e, World (requests w ++ urls ++ [url']) (file w)))
  /\ (forall body, fetched s url' = Return body ->
                   truthy body = true -> is_dict body = false ->
                   V4.fetch_all_pages fuel s url w
                   = (Raise AttributeError,
                      World (requests w ++ urls ++ [url']) (file w))).
Proof.
  intros Hreach Hu Hfuel. unfold V4.fetch_all_pages.
  replace fuel with (List.length urls + S (fuel - List.length urls - 1))%nat by lia.
  rewrite (V4_follow_path s url urls pages url' Hreach).
  cbn [V4.fetch_all_pages_loop]. rewrite Hu.
  split.
  - intros e He. unfold bind at 1. rewrite fetch_json_run, He.
    cbn [requests file]. rewrite <- app_assoc. reflexivity.
  - intros body Hb Ht Hd. unfold bind at 1. rewrite fetch_json_run, Hb, Ht.
    cbn [negb requests file]. rewrite <- app_assoc.
    destruct body; try discriminate Hd; reflexivity.
Qed.

Lemma V4_exception_discards_items_witness :
  V4.fetch_all_pages 5 broken_second_page_session
    (VStr "https://swapi.dev/api/people/") start
  = (Raise JSONDecodeError,
     World [VStr "https://swapi.dev/api/people/";
            VStr "https://swapi.dev/api/people/?page=2"] []).
Proof.
  destruct (V4_exception_discards_items broken_second_page_session
              (VStr "https://swapi.dev/api/people/")
              [VStr "https://swapi.dev/api/people/"] [[VStr "Luke"]]
              (VStr "https://swapi.dev/api/people/?page=2") 5 start)
    as [Hraise _].
  - eapply reaches_page; [reflexivity | reflexivity | discriminate | reflexivity |].
    apply reaches_here.
  - reflexivity.
  - cbn. lia.
  - apply (Hraise JSONDecodeError). reflexivity.
Defined.

(* ===================================================================== *)
(** * Variant 5: the whole script                                         *)
(* ===================================================================== *)

Lemma collect_returns (futures : list (result value)) :
  forallb (fun future => negb (raises future)) futures = true ->
  collect futures = Return (map page_of futures).
Proof.
  induction futures as [| future rest IH]; intros H; [reflexivity |].
  cbn [forallb] in H. apply andb_prop in H as [Hf Hr].
  destruct future as [page | e]; [| discriminate Hf].
  cbn [collect map page_of]. rewrite (IH Hr). reflexivity.
Qed.

(** A batch none of whose tasks raises: [gather] hands back the results
    in submission order, whatever the completion order. *)
Lemma gather_all_return (sched : scheduler) (s : session) (urls : list value)
    (w : world) :
  all_return s urls = true ->
  gather sched (map (fetch_json s) urls) w
  = (Return (batch_results s urls), World (requests w ++ urls) (file w)).
Proof.
  intros H. rewrite gather_fetch_run.
  assert (H' : forallb (fun future => negb (raises future)) (map (fetched s) urls)
               = true).
  { unfold all_return in H. rewrite forallb_forall in *. intros future Hin.
    apply in_map_iff in Hin as [url [<- Hin]]. apply H, Hin. }
  rewrite (collect_returns _ (forallb_Permutation _ _ _
                                (as_completed_perm sched _ _) H')).
  rewrite (collect_returns _ H'). unfold batch_results. rewrite map_map.
  reflexivity.
Qed.

Lemma V5_fetch_keeps_file (sched : scheduler) (s : session) (base_url : string)
    (p : Z) (w : world) :
  file (snd (V5.fetch_all_with_total_offset sched s base_url p w)) = file w.
Proof.
  unfold V5.fetch_all_with_total_offset. cbv zeta. unfold bind at 1.
  rewrite fetch_json_run.
  destruct (fetched s _) as [page | e]; [| reflexivity].
  destruct (truthy page); cbn [negb]; [| reflexivity].
  change (V5.total_items =? 0) with false. cbv iota.
  unfold bind at 1, lift.
  destruct (V5.urls_to_fetch _ _ _) as [urls | e]; [| reflexivity].
  unfold bind at 1. rewrite gather_fetch_run.
  destruct (collect (as_completed sched _ _)) as [ignored | e]; [| reflexivity].
  destruct (collect (map (fetched s) urls)) as [pages | e]; [| reflexivity].
  destruct (V5.combine_pages page pages); reflexivity.
Qed.

(** X10. In every run of variant 5, whatever the server answers and also
    when the run ends with an exception, the file is empty or its first
    line is the header and every other line is a row: the header is
    written as soon as the file is opened. *)
Theorem V5_main_header_invariant (sched : scheduler) (s : session)
    (base_url : string) (max_results : Z) (fields : list string) :
  header_invariant fields
    (file (snd (V5.main sched s base_url max_results fields start))) = true.
Proof.
  unfold V5.main. unfold bind at 1.
  pose proof (V5_fetch_keeps_file sched s base_url max_results start) as Hfile.
  destruct (V5.fetch_all_with_total_offset sched s base_url max_results start)
    as [[all_items | e] w1]; cbn [snd file start] in *; [| rewrite Hfile; reflexivity].
  destruct (truthy all_items); cbn [negb ret snd]; [| rewrite Hfile; reflexivity].
  unfold bind at 1, writeheader. rewrite write_run.
  destruct (writerows_only_rows fields all_items
              (World (requests w1) (file w1 ++ [Header fields]))) as [rows [E H]].
  rewrite E. cbn [file]. rewrite Hfile. cbn [app header_invariant].
  rewrite fields_eq_refl. exact H.
Qed.

(** X11. As long as no task raises past [fetch_json], the batch of
    variant 5 does not depend on the order in which the pages complete:
    [gather] returns the pages in submission order, so two runs under
    any two completion orders return the same items, issue the same
    requests and write the same file. *)
Theorem V5_completion_order_irrelevant (sched1 sched2 : scheduler) (s : session)
    (base_url : string) (p : Z) (fields : list string) (w : world) :
  (forall offset, raises (batch_page_at base_url p s offset) = false) ->
  V5.fetch_all_with_total_offset sched1 s base_url p w
  = V5.fetch_all_with_total_offset sched2 s base_url p w
  /\ V5.main sched1 s base_url p fields w = V5.main sched2 s base_url p fields w.
Proof.
  intros Hok.
  assert (E : V5.fetch_all_with_total_offset sched1 s base_url p w
              = V5.fetch_all_with_total_offset sched2 s base_url p w).
  { unfold V5.fetch_all_with_total_offset, bind. cbv zeta.
    rewrite !fetch_json_run.
    destruct (fetched s _) as [page | e]; [| reflexivity].
    destruct (truthy page); cbn [negb]; [| reflexivity].
    change (V5.total_items =? 0) with false. cbv iota.
    unfold lift, V5.urls_to_fetch.
    destruct (range p V5.total_items p) as [starts | e]; [| reflexivity].
    assert (Hall : all_return s
                     (map (fun o => VStr (V5.page_url base_url p o)) starts) = true).
    { unfold all_return. apply forallb_forall. intros url Hin.
      apply in_map_iff in Hin as [o [<- _]].
      specialize (Hok o). unfold batch_page_at in Hok. rewrite Hok. reflexivity. }
    rewrite !(gather_all_return _ s _ _ Hall). reflexivity. }
  split; [exact E |]. unfold V5.main, bind. rewrite E. reflexivity.
Qed.

Lemma V5_completion_order_irrelevant_witness :
  V5.main in_submission_order posts_session
    "https://jsonplaceholder.typicode.com/posts" 40 ["id"]%string start
  = V5.main last_submitted_first posts_session
      "https://jsonplaceholder.typicode.com/posts" 40 ["id"]%string start.
Proof.
  apply (V5_completion_order_irrelevant in_submission_order last_submitted_first
           posts_session "https://jsonplaceholder.typicode.com/posts" 40
           ["id"]%string start).
  intros offset. reflexivity.
Defined.

(** X12. End to end, for a server whose pages are lists of objects or
    fail: variant 5 writes the header and then one row for every item of
    the first page and of every page that was fetched, in submission
    order, each row holding the item's values of the configured fields
    (the empty string for a missing one). *)
Theorem V5_main_writes_all_items (sched : scheduler) (s : session)
    (base_url : string) (p : Z) (fields : list string)
    (first_items : list value) :
  p <> 0 ->
  batch_page_at base_url p s 0 = Return (VList first_items) ->
  first_items <> [] ->
  (forall offset, batch_result_ok (batch_page_at base_url p s offset) = true) ->
  (forall offset,
      forallb is_dict (list_items (page_of (batch_page_at base_url p s offset)))
      = true) ->
  exists offsets,
    range p V5.total_items p = Return offsets
    /\ V5.main sched s base_url p fields start
       = (Return tt,
          World (VStr (V5.page_url base_url p 0)
                   :: map (fun o => VStr (V5.page_url base_url p o)) offsets)
                (Header fields
                   :: flat_map (row_of fields)
                        (first_items
                           ++ flat_map
                                (fun o => list_items
                                            (page_of (batch_page_at base_url p s o)))
                                offsets))).
Proof.
  intros Hp Hfirst Hne Hok Hdicts.
  destruct (V5_failed_page_is_skipped sched s base_url p first_items start
              Hp Hfirst Hne Hok) as [offsets [Hrange Hrun]].
  exists offsets. split; [exact Hrange |].
  unfold V5.main. unfold bind at 1. rewrite Hrun.
  destruct first_items as [| item items]; [congruence |].
  cbn [app truthy negb]. unfold bind at 1, writeheader. rewrite write_run.
  rewrite writerows_dicts.
  - cbn [requests file start app]. reflexivity.
  - change (item :: items ++ ?l) with ((item :: items) ++ l).
    rewrite forallb_app. apply andb_true_intro. split.
    + specialize (Hdicts 0). rewrite Hfirst in Hdicts. exact Hdicts.
    + apply forallb_forall. intros x Hin. apply in_flat_map in Hin as [o [_ Hin]].
      exact (proj1 (forallb_forall _ _) (Hdicts o) x Hin).
Qed.

Lemma V5_main_writes_all_items_witness :
  exists offsets,
    range 40 V5.total_items 40 = Return offsets
    /\ V5.main in_submission_order posts_session
         "https://jsonplaceholder.typicode.com/posts" 40 ["id"]%string start
       = (Return tt,
          World (VStr (V5.page_url "https://jsonplaceholder.typicode.com/posts" 40 0)
                   :: map (fun o => VStr (V5.page_url
                                            "https://jsonplaceholder.typicode.com/posts"
                                            40 o)) offsets)
                (Header ["id"]%string
                   :: flat_map (row_of ["id"]%string)
                        ([VDict [("id", VInt 1)]%string]
                           ++ flat_map
                                (fun o => list_items
                                            (page_of
                                               (batch_page_at
                                                  "https://jsonplaceholder.typicode.com/posts"
                                                  40 posts_session o)))
                                offsets))).
Proof.
  apply (V5_main_writes_all_items in_submission_order posts_session
           "https://jsonplaceholder.typicode.com/posts" 40 ["id"]%string
           [VDict [("id", VInt 1)]%string]).
  - lia.
  - reflexivity.
  - discriminate.
  - intros offset. reflexivity.
  - intros offset. reflexivity.
Defined.

(* ===================================================================== *)
(** * The writer on good and bad rows                                     *)
(* ===================================================================== *)

Lemma get_not_dict (page : value) (key : string) (default : value) :
  is_dict page = false -> get page key default = Raise AttributeError.
Proof. destruct page; (discriminate || reflexivity). Qed.

(** X13. [writerows] writes row by row: when the item list holds an
    element that is not an object, the rows of the items before it are
    in the file, the [AttributeError] of that element leaves the writer,
    and nothing of the elements after it is written. *)
Theorem writerows_stops_at_bad_row (fields : list string)
    (good : list value) (bad : value) (after : list value) (w : world) :
  fields <> [] ->
  forallb is_dict good = true -> is_dict bad = false ->
  writerows fields (VList (good ++ bad :: after)) w
  = (Raise AttributeError,
     World (requests w) (file w ++ flat_map (row_of fields) good)).
Proof.
  intros Hf Hgood Hbad. unfold writerows, bind at 1, lift. cbn [iterate].
  revert w. induction good as [| item good IH]; intros w; cbn [app for_each flat_map].
  - unfold bind, writerow. unfold bind, lift.
    destruct fields as [| key fields']; [congruence |].
    cbn [map_result]. rewrite (get_not_dict bad key _ Hbad). cbn [and_then].
    rewrite app_nil_r, world_eta. reflexivity.
  - cbn [forallb] in Hgood. apply andb_prop in Hgood as [Hi Hgood].
    destruct item; try discriminate Hi.
    unfold bind at 1. rewrite writerow_dict. rewrite (IH Hgood).
    cbn [requests file row_of]. rewrite <- app_assoc. reflexivity.
Qed.

Lemma writerows_stops_at_bad_row_witness :
  writerows ["id"]%string (VList [product 1; VInt 7; product 3]) start
  = (Raise AttributeError, World [] [Row [VInt 1]]).
Proof.
  apply (writerows_stops_at_bad_row ["id"]%string [product 1] (VInt 7)
           [product 3] start).
  - discriminate.
  - reflexivity.
  - reflexivity.
Defined.

Lemma assoc_tabulate (f : string -> value) (fields : list string) (key : string) :
  In key fields -> assoc (map (fun k => (k, f k)) fields) key = Some (f key).
Proof.
  induction fields as [| k fields IH]; [intros [] |].
  cbn [map assoc]. intros Hin. destruct (String.eqb_spec k key) as [-> | Hne].
  - reflexivity.
  - destruct Hin as [-> | Hin]; [congruence | apply IH, Hin].
Qed.

Lemma keys_tabulate (f : string -> value) (fields : list string) :
  forallb (fun key => existsb (String.eqb key) fields)
          (map fst (map (fun k => (k, f k)) fields)) = true.
Proof.
  rewrite map_map. cbn [fst]. rewrite map_id. apply forallb_forall.
  intros key Hin. apply existsb_exists. exists key.
  split; [exact Hin | apply String.eqb_refl].
Qed.

(** The dict comprehension of variants 2 and 3 on an object, and the row
    either writer makes of it. *)
Lemma processed_item_dict (fields : list string) (kv : list (string * value)) :
  V2.processed_item fields (VDict kv)
  = Return (VDict (map (fun key => (key, dict_get kv key VNone)) fields))
  /\ V3.processed_item fields (VDict kv)
     = Return (VDict (map (fun key => (key, dict_get kv key VNone)) fields)).
Proof.
  assert (E : map_result (fun key => let* v := get (VDict kv) key VNone in
                                     Return (key, v)) fields
              = Return (map (fun key => (key, dict_get kv key VNone)) fields)).
  { induction fields as [| key fields IH]; [reflexivity |].
    cbn [map_result map]. rewrite IH. reflexivity. }
  unfold V2.processed_item, V3.processed_item. rewrite E. split; reflexivity.
Qed.

Lemma processed_row (fields : list string) (kv : list (string * value)) :
  map (fun key => dict_get (map (fun k => (k, dict_get kv k VNone)) fields)
                           key (VStr "")) fields
  = map (fun key => dict_get kv key VNone) fields.
Proof.
  apply map_ext_in. intros key Hin. unfold dict_get at 1.
  rewrite (assoc_tabulate (fun k => dict_get kv k VNone) fields key Hin).
  reflexivity.
Qed.

(* ===================================================================== *)
(** * Variant 3: what the stream writes                                   *)
(* ===================================================================== *)

Lemma V3_stream_run (fields : list string) (futures : list (result value))
    (header_written : bool) (w : world) :
  forallb (fun future => negb (raises future)) futures = true ->
  forallb falsy_or_dict (map page_of futures) = true ->
  V3.stream fields futures header_written w
  = (Return (header_written || existsb truthy (map page_of futures)),
     World (requests w)
           (file w
              ++ (if negb header_written && existsb truthy (map page_of futures)
                  then [Header fields] else [])
              ++ flat_map (projected_row fields)
                          (filter truthy (map page_of futures)))).
Proof.
  revert header_written w.
  induction futures as [| future rest IH]; intros hw w Hret Hok;
    cbn [V3.stream map existsb filter flat_map].
  - rewrite orb_false_r, andb_false_r. cbn [app ret].
    rewrite app_nil_r, world_eta. reflexivity.
  - cbn [forallb map] in Hret, Hok.
    apply andb_prop in Hret as [Hf Hret]. apply andb_prop in Hok as [Hp Hok].
    destruct future as [page | e]; [| discriminate Hf]. cbn [page_of] in *.
    unfold bind at 1, lift. destruct (truthy page) eqn:Ht.
    + unfold falsy_or_dict in Hp. rewrite Ht in Hp. cbn [negb orb] in Hp.
      destruct page as [| | | | | | kv]; try discriminate Hp.
      destruct (processed_item_dict fields kv) as [_ Ep].
      assert (Hhead : (if negb hw then writeheader fields else ret tt) w
                      = (Return tt,
                         World (requests w)
                               (file w ++ (if negb hw then [Header fields] else [])))).
      { destruct hw; cbn [negb]; [| reflexivity].
        unfold ret. rewrite app_nil_r, world_eta. reflexivity. }
      unfold bind at 1. rewrite Hhead. unfold bind at 1, lift. rewrite Ep.
      unfold bind at 1. rewrite writerow_dict, processed_row.
      rewrite (IH true _ Hret Hok). cbn [requests file negb andb orb app flat_map projected_row].
      rewrite orb_true_r, andb_true_r. rewrite <- !app_assoc. reflexivity.
    + rewrite (IH hw w Hret Hok). cbn [orb]. reflexivity.
Qed.

Lemma existsb_filter (l : list value) :
  existsb truthy l = match filter truthy l with [] => false | _ :: _ => true end.
Proof.
  induction l as [| x l IH]; [reflexivity |]. cbn [existsb filter].
  destruct (truthy x); [reflexivity | exact IH].
Qed.

(** X14. For a server whose answers are failed fetches, falsy bodies or
    objects, variant 3 requests every URL once, in the order in which
    [as_completed] starts its tasks, and writes nothing when no result is
    truthy, and otherwise the header followed by one row for every truthy
    result, in completion order; a row holds the result's values of the
    configured fields, [None] for a missing one.  The closing message
    tells whether a result was written. *)
Theorem V3_main_writes_truthy_results (urls : list value) (fields : list string)
    (sched : scheduler) (s : session) :
  all_return s urls = true ->
  forallb falsy_or_dict (batch_results s urls) = true ->
  V3.main urls fields sched s start
  = (Return (final_report
               (existsb truthy
                  (map page_of
                     (as_completed sched _
                        (map (fetched s) (started sched _ urls)))))),
     World (started sched _ urls)
           (match filter truthy
                    (map page_of
                       (as_completed sched _
                          (map (fetched s) (started sched _ urls))))
            with
            | [] => []
            | _ :: _ =>
                Header fields
                  :: flat_map (projected_row fields)
                       (filter truthy
                          (map page_of
                             (as_completed sched _
                                (map (fetched s) (started sched _ urls)))))
            end))
  /\ Permutation urls (started sched _ urls)
  /\ Permutation (batch_results s urls)
                 (map page_of
                    (as_completed sched _
                       (map (fetched s) (started sched _ urls)))).
Proof.
  intros Hret Hok.
  assert (Pf : Permutation (map (fetched s) urls)
                 (as_completed sched _ (map (fetched s) (started sched _ urls)))).
  { eapply Permutation_trans; [| apply as_completed_perm].
    apply Permutation_map, started_perm. }
  assert (Pp : Permutation (batch_results s urls)
                 (map page_of
                    (as_completed sched _
                       (map (fetched s) (started sched _ urls))))).
  { unfold batch_results. rewrite <- (map_map (fetched s) page_of).
    apply Permutation_map, Pf. }
  split; [| split; [apply started_perm | exact Pp]].
  unfold V3.main, except_IOError. unfold bind at 1. rewrite launch_run.
  assert (Hret' : forallb (fun future => negb (raises future))
                    (as_completed sched _
                       (map (fetched s) (started sched _ urls))) = true).
  { apply (forallb_Permutation _ _ _ Pf). unfold all_return in Hret.
    rewrite forallb_forall in *. intros future Hin.
    apply in_map_iff in Hin as [url [<- Hin]]. apply Hret, Hin. }
  pose proof (forallb_Permutation _ _ _ Pp Hok) as Hok'.
  unfold bind at 1. rewrite (V3_stream_run fields _ false _ Hret' Hok').
  cbn [orb negb andb requests file start app ret caught]. rewrite existsb_filter.
  destruct (filter truthy _); reflexivity.
Qed.

Lemma V3_main_writes_truthy_results_witness :
  V3.main [VStr "https://jsonplaceholder.typicode.com/posts/1";
           VStr "https://jsonplaceholder.typicode.com/posts/2";
           VStr "https://jsonplaceholder.typicode.com/posts/3"]
          ["id"; "title"]%string last_submitted_first single_posts_session start
  = (Return SuccessfullyStreamed,
     World [VStr "https://jsonplaceholder.typicode.com/posts/1";
            VStr "https://jsonplaceholder.typicode.com/posts/2";
            VStr "https://jsonplaceholder.typicode.com/posts/3"]
           [Header ["id"; "title"]%string;
            Row [VInt 3; VNone];
            Row [VInt 1; VStr "one"]]).
Proof.
  apply (V3_main_writes_truthy_results
           [VStr "https://jsonplaceholder.typicode.com/posts/1";
            VStr "https://jsonplaceholder.typicode.com/posts/2";
            VStr "https://jsonplaceholder.typicode.com/posts/3"]
           ["id"; "title"]%string last_submitted_first single_posts_session).
  - reflexivity.
  - reflexivity.
Defined.

(* ===================================================================== *)
(** * Variants 1 and 2: what the batch writes                             *)
(* ===================================================================== *)

Lemma truthy_dicts (pages : list value) :
  forallb falsy_or_dict pages = true ->
  forallb is_dict (filter truthy pages) = true.
Proof.
  induction pages as [| page pages IH]; [reflexivity |]. cbn [forallb filter].
  intros H. apply andb_prop in H as [Hp H]. unfold falsy_or_dict in Hp.
  destruct (truthy page); [| apply IH, H].
  cbn [negb orb] in Hp. cbn [forallb]. rewrite Hp. apply IH, H.
Qed.

Lemma V2_processed_data (fields : list string) (pages : list value) :
  forallb is_dict pages = true ->
  exists processed_data,
    map_result (V2.processed_item fields) pages = Return processed_data
    /\ List.length processed_data = List.length pages
    /\ forall w, for_each processed_data (writerow_raise fields) w
                 = (Return tt,
                    World (requests w)
                          (file w ++ flat_map (projected_row fields) pages)).
Proof.
  induction pages as [| page pages IH]; intros Hd.
  - exists []. repeat split. intros w. cbn [for_each flat_map ret].
    rewrite app_nil_r, world_eta. reflexivity.
  - cbn [forallb] in Hd. apply andb_prop in Hd as [Hp Hd].
    destruct page as [| | | | | | kv]; try discriminate Hp.
    destruct (IH Hd) as [processed [Hmap [Hlen Hrun]]].
    destruct (processed_item_dict fields kv) as [Ep _].
    exists (VDict (map (fun key => (key, dict_get kv key VNone)) fields)
              :: processed).
    cbn [map_result]. rewrite Ep, Hmap. cbn [and_then List.length].
    repeat split; [congruence |].
    intros w. cbn [for_each]. unfold bind at 1, writerow_raise.
    unfold bind at 1, lift. cbn [keys]. rewrite keys_tabulate.
    rewrite writerow_dict, processed_row, Hrun.
    cbn [requests file flat_map projected_row]. rewrite <- app_assoc. reflexivity.
Qed.

(** X15. For a server whose answers are failed fetches, falsy bodies or
    objects, variant 2 writes nothing when no result is truthy, and
    otherwise the header followed by one row for every truthy result, in
    the order of the URL list whatever the completion order; a row holds
    the result's values of the configured fields, [None] for a missing
    one. *)
Theorem V2_main_writes_processed_results (urls : list value)
    (fields : list string) (sched : scheduler) (s : session) :
  all_return s urls = true ->
  forallb falsy_or_dict (batch_results s urls) = true ->
  V2.main urls fields sched s start
  = (Return tt,
     World urls
           (match filter truthy (batch_results s urls) with
            | [] => []
            | _ :: _ =>
                Header fields
                  :: flat_map (projected_row fields)
                       (filter truthy (batch_results s urls))
            end)).
Proof.
  intros Hret Hok. unfold V2.main. unfold bind at 1.
  rewrite (gather_all_return sched s urls start Hret). cbv zeta.
  cbn [requests file start app].
  pose proof (truthy_dicts _ Hok) as Hd.
  destruct (filter truthy (batch_results s urls)) as [| page pages] eqn:E;
    [reflexivity |].
  destruct (V2_processed_data fields _ Hd) as [processed [Hmap [Hlen Hrun]]].
  unfold bind at 1, lift. rewrite Hmap.
  destruct processed as [| row rows]; [discriminate Hlen |].
  unfold bind at 1, writeheader. rewrite write_run.
  unfold writerows_raise, bind at 1, lift. cbn [iterate].
  rewrite Hrun. reflexivity.
Qed.

Lemma V2_main_writes_processed_results_witness :
  V2.main V2.api_urls V2.fields_to_extract last_submitted_first
          single_posts_session start
  = (Return tt,
     World V2.api_urls
           [Header ["id"; "title"]%string;
            Row [VInt 1; VStr "one"];
            Row [VInt 3; VNone]]).
Proof.
  apply (V2_main_writes_processed_results V2.api_urls V2.fields_to_extract
           last_submitted_first single_posts_session).
  - reflexivity.
  - reflexivity.
Defined.

Lemma V2_processed_data_raises (fields : list string) (pages : list value) :
  fields <> [] ->
  existsb (fun page => negb (is_dict page)) pages = true ->
  map_result (V2.processed_item fields) pages = Raise AttributeError.
Proof.
  intros Hf. induction pages as [| page pages IH]; [discriminate |].
  cbn [existsb map_result]. intros H.
  destruct (is_dict page) eqn:Hd.
  - destruct page as [| | | | | | kv]; try discriminate Hd.
    destruct (processed_item_dict fields kv) as [-> _]. cbn [and_then].
    rewrite (IH H). reflexivity.
  - unfold V2.processed_item. destruct fields as [| key fields']; [congruence |].
    cbn [map_result]. rewrite (get_not_dict page key _ Hd). reflexivity.
Qed.

(** X16. Variant 2 processes every result before it opens the file: when
    a truthy result is not an object (a JSON array, a number, a string),
    the run fails with an [AttributeError] and nothing at all is
    written, the results before it included. *)
Theorem V2_main_all_or_nothing (urls : list value) (fields : list string)
    (sched : scheduler) (s : session) :
  fields <> [] ->
  all_return s urls = true ->
  existsb (fun page => truthy page && negb (is_dict page)) (batch_results s urls)
  = true ->
  V2.main urls fields sched s start = (Raise AttributeError, World urls []).
Proof.
  intros Hf Hret Hbad. unfold V2.main. unfold bind at 1.
  rewrite (gather_all_return sched s urls start Hret). cbv zeta.
  cbn [requests file start app].
  assert (H : existsb (fun page => negb (is_dict page))
                (filter truthy (batch_results s urls)) = true).
  { induction (batch_results s urls) as [| page pages IH]; [discriminate |].
    cbn [existsb filter] in *. destruct (truthy page); cbn [andb existsb] in *.
    - destruct (negb (is_dict page)); [reflexivity | apply IH, Hbad].
    - apply IH, Hbad. }
  destruct (filter truthy (batch_results s urls)) as [| page pages] eqn:E;
    [discriminate H |].
  unfold bind at 1, lift. rewrite (V2_processed_data_raises fields _ Hf H).
  reflexivity.
Qed.

Lemma V2_main_all_or_nothing_witness :
  V2.main [VStr "https://jsonplaceholder.typicode.com/posts/1";
           VStr "https://jsonplaceholder.typicode.com/posts"]
          V2.fields_to_extract in_submission_order
          (fun url =>
             match single_posts_session url with
             | Return r => Return r
             | Raise _ => ok_response (VList [VInt 1])
             end) start
  = (Raise AttributeError,
     World [VStr "https://jsonplaceholder.typicode.com/posts/1";
            VStr "https://jsonplaceholder.typicode.com/posts"] []).
Proof.
  apply V2_main_all_or_nothing.
  - discriminate.
  - reflexivity.
  - reflexivity.
Defined.

Lemma keys_within_self (kv : list (string * value)) :
  keys_within (map fst kv) (VDict kv) = true.
Proof.
  unfold keys_within, keys_of. apply forallb_forall. intros key Hin.
  apply existsb_exists. exists key. split; [exact Hin | apply String.eqb_refl].
Qed.

Lemma writerow_raise_ok (fields : list string) (kv : list (string * value))
    (w : world) :
  keys_within fields (VDict kv) = true ->
  writerow_raise fields (VDict kv) w
  = (Return tt, World (requests w) (file w ++ row_of fields (VDict kv))).
Proof.
  intros H. unfold writerow_raise, bind at 1, lift. cbn [keys].
  unfold keys_within, keys_of in H. rewrite H. apply writerow_dict.
Qed.

Lemma for_each_writerow_raise_ok (fields : list string) (good : list value)
    (w : world) :
  forallb (fun page => is_dict page && keys_within fields page) good = true ->
  for_each good (writerow_raise fields) w
  = (Return tt, World (requests w) (file w ++ flat_map (row_of fields) good)).
Proof.
  revert w. induction good as [| page good IH]; intros w H; cbn [for_each flat_map].
  - unfold ret. rewrite app_nil_r, world_eta. reflexivity.
  - cbn [forallb] in H. apply andb_prop in H as [Hp H].
    apply andb_prop in Hp as [Hd Hk].
    destruct page as [| | | | | | kv]; try discriminate Hd.
    unfold bind at 1. rewrite (writerow_raise_ok fields kv w Hk), (IH _ H).
    cbn [requests file]. rewrite <- app_assoc. reflexivity.
Qed.

Lemma for_each_writerow_raise_stops (fields : list string)
    (good : list value) (bad : value) (after : list value) (w : world) :
  forallb (fun page => is_dict page && keys_within fields page) good = true ->
  is_dict bad = true -> keys_within fields bad = false ->
  for_each (good ++ bad :: after) (writerow_raise fields) w
  = (Raise ValueError,
     World (requests w) (file w ++ flat_map (row_of fields) good)).
Proof.
  revert w. induction good as [| page good IH]; intros w H Hd Hk;
    cbn [app for_each flat_map].
  - destruct bad as [| | | | | | kv]; try discriminate Hd.
    unfold bind at 1, writerow_raise. unfold bind at 1, lift. cbn [keys].
    unfold keys_within, keys_of in Hk. rewrite Hk. cbn [raise].
    rewrite app_nil_r, world_eta. reflexivity.
  - cbn [forallb] in H. apply andb_prop in H as [Hp H].
    apply andb_prop in Hp as [Hdp Hkp].
    destruct page as [| | | | | | kv]; try discriminate Hdp.
    unfold bind at 1. rewrite (writerow_raise_ok fields kv w Hkp).
    rewrite (IH _ H Hd Hk). cbn [requests file]. rewrite <- app_assoc.
    reflexivity.
Qed.

(** X17. Variant 1 takes the header from the keys of the first truthy
    result.  When the truthy results are objects none of which has a key
    that the first lacks, it writes that header and one row for every
    truthy result, in the order of the URL list, the empty string
    standing for a key that a result lacks. *)
Theorem V1_main_writes_results (urls : list value) (sched : scheduler)
    (s : session) (first : list (string * value)) (others : list value) :
  all_return s urls = true ->
  filter truthy (batch_results s urls) = VDict first :: others ->
  forallb (fun page => is_dict page && keys_within (map fst first) page) others
  = true ->
  V1.main urls sched s start
  = (Return tt,
     World urls
           (Header (map fst first)
              :: flat_map (row_of (map fst first)) (VDict first :: others))).
Proof.
  intros Hret E Hothers. unfold V1.main. unfold bind at 1.
  rewrite (gather_all_return sched s urls start Hret). cbv zeta. rewrite E.
  unfold bind at 1, lift. cbn [keys].
  unfold bind at 1, writeheader. rewrite write_run.
  unfold writerows_raise, bind at 1, lift. cbn [iterate].
  rewrite for_each_writerow_raise_ok.
  - reflexivity.
  - cbn [forallb is_dict andb]. rewrite keys_within_self. exact Hothers.
Qed.

Lemma V1_main_writes_results_witness :
  V1.main [VStr "https://jsonplaceholder.typicode.com/posts/3";
           VStr "https://jsonplaceholder.typicode.com/posts/2";
           VStr "https://jsonplaceholder.typicode.com/posts/3"]
          in_submission_order single_posts_session start
  = (Return tt,
     World [VStr "https://jsonplaceholder.typicode.com/posts/3";
            VStr "https://jsonplaceholder.typicode.com/posts/2";
            VStr "https://jsonplaceholder.typicode.com/posts/3"]
           [Header ["id"; "body"]%string;
            Row [VInt 3; VStr "three"];
            Row [VInt 3; VStr "three"]]).
Proof.
  apply (V1_main_writes_results
           [VStr "https://jsonplaceholder.typicode.com/posts/3";
            VStr "https://jsonplaceholder.typicode.com/posts/2";
            VStr "https://jsonplaceholder.typicode.com/posts/3"]
           in_submission_order single_posts_session
           [("id", VInt 3); ("body", VStr "three")]%string
           [VDict [("id", VInt 3); ("body", VStr "three")]%string]).
  - reflexivity.
  - reflexivity.
  - reflexivity.
Defined.

(** X18. Variant 1 fails on results of different shapes: when a truthy
    result has a key that the first truthy result lacks, the writer
    raises a [ValueError] at that result; the header and the rows of the
    results before it are already in the file, the results after it are
    not written. *)
Theorem V1_main_extra_key (urls : list value) (sched : scheduler) (s : session)
    (first : list (string * value)) (good : list value) (bad : value)
    (after : list value) :
  all_return s urls = true ->
  filter truthy (batch_results s urls) = VDict first :: good ++ bad :: after ->
  forallb (fun page => is_dict page && keys_within (map fst first) page) good
  = true ->
  is_dict bad = true -> keys_within (map fst first) bad = false ->
  V1.main urls sched s start
  = (Raise ValueError,
     World urls
           (Header (map fst first)
              :: flat_map (row_of (map fst first)) (VDict first :: good))).
Proof.
  intros Hret E Hgood Hd Hk. unfold V1.main. unfold bind at 1.
  rewrite (gather_all_return sched s urls start Hret). cbv zeta. rewrite E.
  unfold bind at 1, lift. cbn [keys].
  unfold bind at 1, writeheader. rewrite write_run.
  unfold writerows_raise, bind at 1, lift. cbn [iterate].
  change (VDict first :: good ++ bad :: after)
    with ((VDict first :: good) ++ bad :: after).
  rewrite for_each_writerow_raise_stops.
  - reflexivity.
  - cbn [forallb is_dict andb]. rewrite keys_within_self. exact Hgood.
  - exact Hd.
  - exact Hk.
Qed.

Lemma V1_main_extra_key_witness :
  V1.main V1.api_urls last_submitted_first single_posts_session start
  = (Raise ValueError,
     World V1.api_urls
           [Header ["id"; "title"]%string; Row [VInt 1; VStr "one"]]).
Proof.
  apply (V1_main_extra_key V1.api_urls last_submitted_first single_posts_session
           [("id", VInt 1); ("title", VStr "one")]%string []
           (VDict [("id", VInt 3); ("body", VStr "three")]%string) []).
  - reflexivity.
  - reflexivity.
  - reflexivity.
  - reflexivity.
  - reflexivity.
Defined.

(* ===================================================================== *)
(** * Variant 7: the whole script                                         *)
(* ===================================================================== *)


(** X20. The failure policy of variant 7.  Let every page of the API be
    a failed fetch ([fetch_json] returned [None]) or a well-formed page,
    in any pattern, the total an integer and the page size not 0.  Then
    the run requests every remaining page once, in the order in which
    [as_completed] starts its tasks, returns normally, and the file holds
    the header and the parsed rows of the first page followed by the
    parsed rows of every fetched page, in completion order. *)
Theorem V7_failed_page_is_skipped (cfg : config) (sched : scheduler) (s : session) :
  max_results_per_page cfg <> 0 ->
  total_ok cfg (page_of (page_at cfg s 0)) = true ->
  (forall offset, page_result_ok cfg (page_at cfg s offset) = true) ->
  exists (r : report) (urls : list value),
    V7.main cfg sched s start
    = (Return r,
       World (VStr (page_url cfg 0) :: urls)
             (parsed_first_page_lines cfg (page_of (page_at cfg s 0))
                ++ flat_map (fun future => parsed_rows cfg (page_of future))
                     (as_completed sched _ (map (fetched s) urls))))
    /\ Permutation
         (map (fun o => VStr (page_url cfg o))
              (remaining_offsets cfg (page_of (page_at cfg s 0))))
         urls.
Proof.
  intros Hp Ht Hok.
  rewrite V7_main_run. cbv zeta. cbn [requests file start app].
  destruct (page_result_ok_cases cfg _ (Hok 0)) as [initial [E Hinit]].
  rewrite E in *. cbn [page_of] in *.
  destruct Hinit as [-> | Hinit].
  - cbn [truthy remaining_offsets map parsed_first_page_lines items_of caught].
    exists FailedInitialPage, []. cbn [map]. rewrite as_completed_nil.
    split; [reflexivity | constructor].
  - destruct (page_ok_items cfg _ Hinit) as [kv [-> [Hget Hd]]].
    destruct kv as [| binding kv'].
    + cbn [truthy caught]. rewrite (remaining_offsets_empty_dict cfg Hp).
      exists FailedInitialPage, []. cbn [map]. rewrite as_completed_nil.
      split; [reflexivity | constructor].
    + cbn [truthy].
      rewrite (V7_write_first_page_ok cfg _ _ _ eq_refl Hinit).
      rewrite (urls_to_fetch_offsets cfg _ Hp Ht). cbn [requests file app].
      destruct (remaining_offsets cfg (VDict (binding :: kv'))) as [| o offs].
      * cbn [map caught]. exists AllOnFirstPage, []. cbn [map].
        rewrite as_completed_nil. cbn [flat_map]. rewrite app_nil_r.
        split; [reflexivity | constructor].
      * cbn [map].
        change (VStr (page_url cfg o) :: map (fun o0 => VStr (page_url cfg o0)) offs)
          with (map (fun o0 => VStr (page_url cfg o0)) (o :: offs)).
        rewrite V7_stream_pages_ok by (apply futures_ok, Hok).
        cbn [requests file caught].
        eexists _, _. split; [reflexivity | apply started_perm].
Qed.

Lemma V7_failed_page_is_skipped_witness :
  exists r : report,
    fst (V7.main V7.configuration last_submitted_first three_page_session start)
    = Return r.
Proof.
  destruct (V7_failed_page_is_skipped V7.configuration last_submitted_first
              three_page_session) as [r [urls [E _]]].
  - cbn. discriminate.
  - vm_compute. reflexivity.
  - intros offset. apply serve_ok. vm_compute. reflexivity.
  - exists r. rewrite E. reflexivity.
Defined.

(** The run of the example: the row of the failed page is missing, the
    rows hold the parsed fields. *)
Lemma V7_example_run :
  V7.main V7.configuration last_submitted_first three_page_session start
  = (Return SuccessfullyStreamed,
     World [VStr "https://dummyjson.com/products?limit=20&skip=0";
            VStr "https://dummyjson.com/products?limit=20&skip=20";
            VStr "https://dummyjson.com/products?limit=20&skip=40"]
           [Header ["product_id"; "product_name"; "brand_name"; "category";
                    "price_usd"; "customer_rating"]%string;
            Row [VInt 1; VStr "item"; VNone; VNone; VNone; VNone];
            Row [VInt 2; VStr "item"; VNone; VNone; VNone; VNone];
            Row [VInt 41; VStr "item"; VNone; VNone; VNone; VNone]]).
Proof. reflexivity. Qed.

(* ===================================================================== *)
(** * Bodies of the wrong shape                                           *)
(* ===================================================================== *)

Lemma combine_pages_not_a_list (all_items : value) (pages : list value) :
  is_list all_items = false -> existsb truthy pages = true ->
  V5.combine_pages all_items pages = Raise AttributeError.
Proof.
  intros Hl. induction pages as [| page pages IH]; [discriminate |].
  cbn [existsb V5.combine_pages]. destruct (truthy page); cbn [orb].
  - intros _. destruct all_items; try discriminate Hl; reflexivity.
  - exact IH.
Qed.

(** X21. Variant 5 takes the body of the initial page for the item list
    itself.  When that body is truthy but not a list (an object, as most
    paginated APIs return) and a later page is truthy, the function fails
    with the [AttributeError] of [extend], after every page has been
    requested. *)
Theorem V5_initial_page_not_a_list (sched : scheduler) (s : session)
    (base_url : string) (p : Z) (page : value) (offsets : list Z) (w : world) :
  batch_page_at base_url p s 0 = Return page ->
  truthy page = true -> is_list page = false ->
  range p V5.total_items p = Return offsets ->
  (forall offset, raises (batch_page_at base_url p s offset) = false) ->
  existsb (fun o => truthy (page_of (batch_page_at base_url p s o))) offsets
  = true ->
  V5.fetch_all_with_total_offset sched s base_url p w
  = (Raise AttributeError,
     World (requests w ++ VStr (V5.page_url base_url p 0)
              :: map (fun o => VStr (V5.page_url base_url p o)) offsets)
           (file w)).
Proof.
  intros Hfirst Ht Hl Hrange Hret Hsome.
  unfold V5.fetch_all_with_total_offset. cbv zeta. unfold bind at 1.
  unfold batch_page_at in Hfirst. rewrite fetch_json_run, Hfirst, Ht.
  cbn [negb]. change (V5.total_items =? 0) with false. cbv iota.
  unfold bind at 1, lift, V5.urls_to_fetch. rewrite Hrange.
  unfold bind at 1.
  assert (Hall : all_return s
                   (map (fun o => VStr (V5.page_url base_url p o)) offsets) = true).
  { unfold all_return. apply forallb_forall. intros url Hin.
    apply in_map_iff in Hin as [o [<- _]].
    specialize (Hret o). unfold batch_page_at in Hret. rewrite Hret. reflexivity. }
  rewrite (gather_all_return sched s _ _ Hall). cbn [requests file].
  rewrite combine_pages_not_a_list.
  - rewrite <- app_assoc. reflexivity.
  - exact Hl.
  - unfold batch_results. rewrite map_map.
    clear - Hsome. induction offsets as [| o offsets IH]; [discriminate |].
    cbn [existsb map] in *. unfold batch_page_at in *.
    destruct (truthy (page_of (fetched s (VStr (V5.page_url base_url p o)))));
      [reflexivity | apply IH, Hsome].
Qed.

Lemma V5_initial_page_not_a_list_witness :
  V5.fetch_all_with_total_offset in_submission_order object_session
    "https://dummyjson.com/products" 40 start
  = (Raise AttributeError,
     World [VStr "https://dummyjson.com/products?_start=0&_limit=40";
            VStr "https://dummyjson.com/products?_start=40&_limit=40";
            VStr "https://dummyjson.com/products?_start=80&_limit=40"] []).
Proof.
  apply (V5_initial_page_not_a_list in_submission_order object_session
           "https://dummyjson.com/products" 40
           (VDict [("id", VInt 1)]%string) [40; 80] start).
  - reflexivity.
  - reflexivity.
  - reflexivity.
  - reflexivity.
  - intros offset. reflexivity.
  - reflexivity.
Defined.

(** X22. Variant 6 writes the header before it looks at the items of the
    first page, variant 7 parses them first.  When the first element of
    the item list is not an object, both fail with an [AttributeError];
    variant 6 leaves a file that holds the header and no row, variant 7
    leaves the file empty. *)
Theorem first_page_bad_item (cfg : config) (bad : value) (others : list value)
    (w : world) :
  fields_to_extract cfg <> [] -> is_dict bad = false ->
  V6.write_first_page cfg (VList (bad :: others)) w
  = (Raise AttributeError,
     World (requests w) (file w ++ [Header (fields_to_extract cfg)]))
  /\ V7.write_first_page cfg (VList (bad :: others)) w
     = (Raise AttributeError, w).
Proof.
  intros Hf Hd. split.
  - unfold V6.write_first_page. cbn [truthy].
    unfold bind at 1, writeheader. rewrite write_run. unfold bind at 1.
    rewrite (writerows_stops_at_bad_row (fields_to_extract cfg) [] bad others _ Hf
               eq_refl Hd).
    cbn [requests file flat_map]. rewrite app_nil_r. reflexivity.
  - unfold V7.write_first_page. cbn [truthy]. unfold bind at 1, lift.
    unfold V7.parse_items. cbn [iterate and_then map_result].
    rewrite (get_item_data_not_a_dict bad Hd). reflexivity.
Qed.

Lemma first_page_bad_item_witness :
  V6.write_first_page V6.configuration (VList [VInt 7; product 1]) start
  = (Raise AttributeError,
     World [] [Header ["id"; "title"; "brand"; "category"; "price"; "rating"]%string]).
Proof.
  apply (first_page_bad_item V6.configuration (VInt 7) [product 1] start).
  - discriminate.
  - reflexivity.
Defined.

Lemma V5_failed_page_is_skipped_witness :
  exists offsets,
    range 40 V5.total_items 40 = Return offsets
    /\ V5.fetch_all_with_total_offset last_submitted_first posts_session
         "https://jsonplaceholder.typicode.com/posts" 40 start
       = (Return (VList ([VDict [("id", VInt 1)]%string]
                           ++ flat_map
                                (fun o => list_items
                                            (page_of
                                               (batch_page_at
                                                  "https://jsonplaceholder.typicode.com/posts"
                                                  40 posts_session o)))
                                offsets)),
          World (requests start
                   ++ VStr (V5.page_url "https://jsonplaceholder.typicode.com/posts"
                              40 0)
                   :: map (fun o => VStr (V5.page_url
                                            "https://jsonplaceholder.typicode.com/posts"
                                            40 o)) offsets)
                (file start)).
Proof.
  apply (V5_failed_page_is_skipped last_submitted_first posts_session
           "https://jsonplaceholder.typicode.com/posts" 40
           [VDict [("id", VInt 1)]%string] start).
  - lia.
  - reflexivity.
  - discriminate.
  - intros offset. reflexivity.
Defined.
